(** * A shallow embedding of the OpenBLAS Conan recipe (conanfile.py)

    The recipe is glue code: it loads the list of valid targets, validates
    and normalises the options, and translates options and settings into the
    arguments of an external Make or CMake invocation.  The functions of the
    recipe are embedded below under their own names.  What the methods
    obtain from the machine (the process environment, the search path,
    Conan's helpers, the exit status of external tools) is collected in the
    record [Host]; the HTTP request and the hash function of
    [_load_possible_targets] are the variables of its section. *)

From Stdlib Require Import String Ascii List Bool.
From stdpp Require Import base list strings gmap.

Local Open Scope string_scope.
Local Open Scope list_scope.

(** ** Python primitives used by the recipe *)

Module Py.

(** The line feed, ['\n']. *)
Definition LF : ascii := "010"%char.

(** [s.split(sep)] for a one-character separator: the pieces between the
    separators, empty pieces included; never the empty list. *)
Fixpoint split (sep : ascii) (s : string) : list string :=
  match s with
  | EmptyString => [EmptyString]
  | String c s' =>
      if Ascii.eqb c sep then EmptyString :: split sep s'
      else match split sep s' with
           | piece :: pieces => String c piece :: pieces
           | [] => [String c EmptyString]
           end
  end.

(** [sep.join(l)]. *)
Fixpoint join (sep : string) (l : list string) : string :=
  match l with
  | [] => ""
  | [x] => x
  | x :: l' => x +:+ sep +:+ join sep l'
  end.

(** ["%s" % v] for a value that is a string or [None]. *)
Definition str (v : option string) : string :=
  match v with
  | Some s => s
  | None => "None"
  end.

(** Truth value of a string or [None]: [None] and [""] are false. *)
Definition truthy (v : option string) : bool :=
  match v with
  | Some (String _ _) => true
  | _ => false
  end.

(** [a or b]: the first operand when it is true, the second otherwise. *)
Definition or (a b : option string) : option string :=
  if truthy a then a else b.

(** [c.lower()] and [s.lower()] on ASCII. *)
Definition lower_ascii (c : ascii) : ascii :=
  let n := nat_of_ascii c in
  if ((65 <=? n) && (n <=? 90))%nat then ascii_of_nat (n + 32)%nat else c.

Fixpoint lower (s : string) : string :=
  match s with
  | EmptyString => EmptyString
  | String c s' => String (lower_ascii c) (lower s')
  end.

(** *** The fragment of [re] the recipe uses

    A pattern is a sequence of atoms; [^], [$] and a character range
    under [+] are the atoms of ["^[A-Z]+$"]. *)
Inductive atom : Type :=
| Bol
| Eol
| PlusRange (lo hi : ascii).

Definition regex : Type := list atom.

Definition in_range (lo hi c : ascii) : bool :=
  ((nat_of_ascii lo <=? nat_of_ascii c) && (nat_of_ascii c <=? nat_of_ascii hi))%nat.

(** [$] without MULTILINE: at the end of the string, or just before a
    line feed that ends the string. *)
Definition at_eol (rest : string) : bool :=
  match rest with
  | EmptyString => true
  | String c EmptyString => Ascii.eqb c LF
  | _ => false
  end.

(** Backtracking match of [r] against [rest]; [bol] tells whether the
    current position is the start of the string.  The result is the text
    matched, [group(0)].  [+] is greedy: it takes one more character while
    it can and gives characters back when the rest of the pattern fails. *)
Fixpoint match_here (r : regex) (bol : bool) (rest : string) {struct r}
  : option string :=
  match r with
  | [] => Some EmptyString
  | Bol :: r' => if bol then match_here r' bol rest else None
  | Eol :: r' => if at_eol rest then match_here r' bol rest else None
  | PlusRange lo hi :: r' =>
      (fix plus (rest : string) : option string :=
         match rest with
         | EmptyString => None
         | String c rest' =>
             if in_range lo hi c then
               match plus rest' with
               | Some m => Some (String c m)
               | None =>
                   match match_here r' false rest' with
                   | Some m => Some (String c m)
                   | None => None
                   end
               end
             else None
         end) rest
  end.

(** [pattern.match(s)]: a match anchored at position 0, as [group(0)]. *)
Definition re_match (r : regex) (s : string) : option string :=
  match_here r true s.

End Py.

(** ** Conan's data: settings, options, and what a recipe can do *)

Module Conan.

(** [self.settings]: compared with string literals by the recipe. *)
Record Settings : Type := {
  os : string;
  arch : string;
  compiler : string;
  build_type : string
}.

(** [self.options]: the five options declared over [[True, False]] and
    [TARGET], declared over the loaded target list. *)
Record Options : Type := {
  shared : bool;
  USE_MASS : bool;
  USE_OPENMP : bool;
  NO_LAPACKE : bool;
  NOFORTRAN : bool;
  TARGET : string
}.

(** [self.cpp_info] *)
Record CppInfo : Type := {
  libs : list string;
  includedirs : list string
}.

(** A value stored in [cmake.definitions]. *)
Inductive value : Type :=
| VBool (b : bool)
| VStr (s : string).

(** The [CMake] helper object: its [definitions] dictionary. *)
Record CMake : Type := {
  definitions : gmap string value
}.

(** Invocations of an external tool: all of them can fail. *)
Inductive call : Type :=
| Run (command cwd : string)                       (* [self.run] *)
| ToolsGet (url : string)                          (* [tools.get] *)
| CMakeConfigure (cmake : CMake) (source_dir : string)
| CMakeBuild (cmake : CMake)
| CMakeInstall (cmake : CMake).

(** What a method of the recipe does to the outside, in order. *)
Inductive event : Type :=
| Warn (msg : string)                              (* [self.output.warn] *)
| Info (msg : string)                              (* [self.output.info] *)
| BuildRequires (reference : string)               (* [self.build_requires] *)
| Tool (c : call)
| Rename (src dst : string)                        (* [os.rename] *)
| Copy (pat dst src : string) (ignore_case keep_path : bool) (cwd : string).

(** Exceptions that leave the recipe's functions. *)
Inductive exn : Type :=
| Exception (msg : string)           (* [raise Exception(msg)] in the recipe *)
| RequestException (detail : string) (* raised by [requests.get]: no response *)
| IndexError                         (* [l[0]] on an empty list *)
| UnicodeEncodeError                 (* text that the ASCII codec cannot encode *)
| TypeError                          (* an argument of the wrong type *)
| ConanException (retcode : nat).    (* an external tool exited non-zero *)

(** The recipe object: read-only settings and folders, mutable options and
    [cpp_info], and the events emitted so far. *)
Record Self : Type := {
  settings : Settings;
  options : Options;
  cpp_info : CppInfo;
  source_folder : string;
  package_folder : string;
  events : list event
}.

(** What the recipe obtains from the machine it runs on. *)
Record Host : Type := {
  environ : gmap string string;                   (* [os.environ] *)
  which : string -> option string;                (* [tools.which] *)
  cross_building : Settings -> bool;              (* [tools.cross_building] *)
  collect_libs : string -> list string;           (* [tools.collect_libs], by package folder *)
  collect_libs_warnings : string -> list string;  (* what it warns of on the recipe's output *)
  path_join : string -> string -> string;         (* [os.path.join] *)
  glob : string -> list string;                   (* [glob.glob] *)
  new_definitions : Settings -> Options -> gmap string value;
                                                  (* the definitions of a fresh [CMake(self)] *)
  retcode : call -> nat                           (* exit status of an external tool *)
}.

(** Truth value of an option value: Conan's option values are strings
    that count as false when, in lower case, they are one of these. *)
Definition _falsey_options : list string := ["false"; "none"; "0"; "off"; ""].

Definition option_bool (v : string) : bool :=
  negb (existsb (String.eqb (Py.lower v)) _falsey_options).

(** Methods run in a state and exception monad over [Self]: a raised
    exception keeps what was done before it. *)
Definition M (A : Type) : Type := Self -> (exn + A) * Self.

#[global] Instance M_ret : MRet M := fun A (a : A) self => (inr a, self).

#[global] Instance M_bind : MBind M := fun A B (f : A -> M B) (m : M A) self =>
  match m self with
  | (inl e, self') => (inl e, self')
  | (inr a, self') => f a self'
  end.

Definition raise {A : Type} (e : exn) : M A := fun self => (inl e, self).

Definition get_self : M Self := fun self => (inr self, self).

Definition emit (e : event) : M unit := fun self =>
  (inr tt,
   {| settings := settings self; options := options self;
      cpp_info := cpp_info self; source_folder := source_folder self;
      package_folder := package_folder self;
      events := events self ++ [e] |}).

Definition set_options (o : Options) : M unit := fun self =>
  (inr tt,
   {| settings := settings self; options := o;
      cpp_info := cpp_info self; source_folder := source_folder self;
      package_folder := package_folder self;
      events := events self |}).

Definition set_cpp_info (c : CppInfo) : M unit := fun self =>
  (inr tt,
   {| settings := settings self; options := options self;
      cpp_info := c; source_folder := source_folder self;
      package_folder := package_folder self;
      events := events self |}).

(** [self.options.NOFORTRAN = b] *)
Definition set_NOFORTRAN (b : bool) : M unit :=
  self ← get_self;
  let o := options self in
  set_options {| shared := shared o; USE_MASS := USE_MASS o;
                 USE_OPENMP := USE_OPENMP o; NO_LAPACKE := NO_LAPACKE o;
                 NOFORTRAN := b; TARGET := TARGET o |}.

(** [self.cpp_info.libs = l], [self.cpp_info.libs.append(x)] and
    [self.cpp_info.includedirs.append(d)] *)
Definition set_libs (l : list string) : M unit :=
  self ← get_self;
  set_cpp_info {| libs := l; includedirs := includedirs (cpp_info self) |}.

Definition libs_append (x : string) : M unit :=
  self ← get_self;
  set_cpp_info {| libs := libs (cpp_info self) ++ [x];
                  includedirs := includedirs (cpp_info self) |}.

Definition includedirs_append (d : string) : M unit :=
  self ← get_self;
  set_cpp_info {| libs := libs (cpp_info self);
                  includedirs := includedirs (cpp_info self) ++ [d] |}.

(** An external tool is invoked, and its failure is raised. *)
Definition tool (h : Host) (c : call) : M unit :=
  emit (Tool c);;
  match retcode h c with
  | O => mret tt
  | S _ => raise (ConanException (retcode h c))
  end.

(** [tools.collect_libs(self)]: the helper is handed the recipe object; it
    looks into its package folder, writes its warnings (a missing library
    folder, a library found twice) to the output of the recipe and returns
    the names it found. *)
Definition tools_collect_libs (h : Host) : M (list string) := fun self =>
  (inr (collect_libs h (package_folder self)),
   {| settings := settings self; options := options self;
      cpp_info := cpp_info self; source_folder := source_folder self;
      package_folder := package_folder self;
      events := events self
                ++ List.map Warn (collect_libs_warnings h (package_folder self)) |}).

(** [cmake.definitions[k] = v] *)
Definition define (k : string) (v : value) (cmake : CMake) : CMake :=
  {| definitions := <[k := v]> (definitions cmake) |}.

End Conan.

Import Conan.

(** ** [_load_possible_targets] *)

Section LoadPossibleTargets.

(** [requests.get(url).text], or the detail of the transport failure. *)
Variable requests_get : string -> string + string.
(** [hashlib.sha256(target_list).hexdigest()] on the decoded text of the
    response: the digest, or the exception [hashlib] raises on that text. *)
Variable sha256_hexdigest : string -> exn + string.

Definition expected_digest : string :=
  "383b9fb0113801fa00efbb9c80f5dd90ded99c893b3164a86e27289400600bde".

Definition target_list_url (version : string) : string :=
  "https://raw.githubusercontent.com/xianyi/OpenBLAS/v" +:+ version +:+ "/TargetList.txt".

(** [re.compile("^[A-Z]+$")] *)
Definition pattern : Py.regex := [Py.Bol; Py.PlusRange "A" "Z"; Py.Eol].

(** The body of the [for] loop: [result] after one more [line]. *)
Definition collect_line (result : list string) (line : string) : list string :=
  match Py.re_match pattern line with
  | Some group0 => result ++ [group0]
  | None => result
  end.

Definition _load_possible_targets (version : string) : exn + list string :=
  let url := target_list_url version in
  match requests_get url with
  | inl detail => inl (RequestException detail)
  | inr target_list =>
      match sha256_hexdigest target_list with
      | inl raised => inl raised
      | inr actual_digest =>
          if negb (String.eqb actual_digest expected_digest) then
            inl (Exception
                   ("The computed digest (" +:+ url +:+ ") fot " +:+ actual_digest
                    +:+ " is not equal to the expected digest (" +:+ expected_digest +:+ ")"))
          else
            inr (fold_left collect_line (Py.split Py.LF target_list) [])
      end
  end.

End LoadPossibleTargets.

(** ** The recipe class [OpenblasConan] *)

Module OpenblasConan.

Definition version : string := "0.3.5".

(** [default_options], from the loaded [_targets]; [_targets[0]] needs a
    first entry. *)
Definition default_options (_targets : list string) : exn + Options :=
  match _targets with
  | [] => inl IndexError
  | first :: _ =>
      inr {| shared := true; USE_MASS := false; USE_OPENMP := false;
             NO_LAPACKE := true; NOFORTRAN := false; TARGET := first |}
  end.

Definition _get_make_arch (self : Self) : string :=
  if String.eqb (arch (settings self)) "x86" then "32" else "64".

Definition _get_make_build_type_debug (self : Self) : string :=
  if String.eqb (build_type (settings self)) "Release" then "0" else "1".

Definition _get_make_option_value (option : bool) : string :=
  if option then "1" else "0".

Definition build_requirements : M unit :=
  self ← get_self;
  if String.eqb (os (settings self)) "Windows" then
    emit (BuildRequires "strawberryperl/5.26.0@conan/stable")
  else mret tt.

Definition configure : M unit :=
  self ← get_self;
  (if String.eqb (compiler (settings self)) "Visual Studio" then
     if negb (shared (options self)) then
       raise (Exception
                ("Static build not supported in Visual Studio: "
                 +:+ "https://github.com/xianyi/OpenBLAS/blob/v0.3.5/CMakeLists.txt#L152"))
     else mret tt
   else mret tt);;
  self ← get_self;
  if String.eqb (os (settings self)) "Windows" then
    if NOFORTRAN (options self) then
      emit (Warn "NOFORTRAN option is disabled for Windows. Setting to false");;
      set_NOFORTRAN false
    else mret tt
  else mret tt.

Definition source (h : Host) : M unit :=
  emit (Info "source()");;
  let source_url := "https://sourceforge.net/projects/openblas" in
  let file_name := "OpenBLAS" +:+ " " +:+ version +:+ " version" in
  tool h (ToolsGet (source_url +:+ "/files/v" +:+ version +:+ "/" +:+ file_name +:+ ".tar.gz"));;
  match glob h "xianyi-OpenBLAS-*" with
  | [] => raise IndexError
  | first :: _ => emit (Rename first "sources")
  end.

Definition _is_msvc (self : Self) : bool :=
  String.eqb (compiler (settings self)) "Visual Studio".

Definition _configure_cmake (h : Host) : M CMake :=
  emit (Warn "Building with CMake: Some options won't make any effect");;
  self ← get_self;
  let cmake := {| definitions := new_definitions h (settings self) (options self) |} in
  let cmake := define "USE_MASS" (VBool (USE_MASS (options self))) cmake in
  let cmake := define "USE_OPENMP" (VBool (USE_OPENMP (options self))) cmake in
  let cmake := define "NO_LAPACKE" (VBool (NO_LAPACKE (options self))) cmake in
  let cmake := define "NOFORTRAN" (VBool (NOFORTRAN (options self))) cmake in
  tool h (CMakeConfigure cmake "sources");;
  mret cmake.

Definition _build_cmake (h : Host) : M unit :=
  cmake ← _configure_cmake h;
  tool h (CMakeBuild cmake).

(** The host C compiler of a cross build. *)
Definition hostcc (h : Host) : option string :=
  match environ h !! "CC_FOR_BUILD" with
  | Some cc_for_build => Some cc_for_build
  | None => Py.or (Py.or (which h "cc") (which h "gcc")) (which h "clang")
  end.

(** The list [make_options] of [_build_make] when it reaches [self.run]. *)
Definition make_options (h : Host) (self : Self) (args : option (list string))
  : list string :=
  let make_options :=
    ["DEBUG=" +:+ _get_make_build_type_debug self;
     "BINARY=" +:+ _get_make_arch self;
     "NO_LAPACKE=" +:+ _get_make_option_value (NO_LAPACKE (options self));
     "USE_MASS=" +:+ _get_make_option_value (USE_MASS (options self));
     "USE_OPENMP=" +:+ _get_make_option_value (USE_OPENMP (options self));
     "NOFORTRAN=" +:+ _get_make_option_value (NOFORTRAN (options self))] in
  let make_options :=
    if shared (options self) then make_options ++ ["NO_STATIC=1"]
    else make_options ++ ["NO_SHARED=1"] in
  let target := TARGET (options self) in
  let make_options :=
    if cross_building h (settings self) then
      make_options ++ ["HOSTCC=" +:+ Py.str (hostcc h)]
    else make_options in
  let make_options :=
    if option_bool target then make_options ++ ["TARGET=" +:+ target]
    else make_options in
  let make_options :=
    match environ h !! "CC" with
    | Some cc => make_options ++ ["CC=" +:+ cc]
    | None => make_options
    end in
  let make_options :=
    match environ h !! "AR" with
    | Some ar => make_options ++ ["AR=" +:+ ar]
    | None => make_options
    end in
  match args with
  | Some (a :: args') => make_options ++ a :: args'
  | _ => make_options
  end.

Definition _build_make (h : Host) (args : option (list string)) : M unit :=
  self ← get_self;
  tool h (Run ("cd sources && make " +:+ Py.join " " (make_options h self args))
              (source_folder self)).

Definition build (h : Host) : M unit :=
  self ← get_self;
  if _is_msvc self then _build_cmake h else _build_make h None.

Definition package (h : Host) : M unit :=
  self ← get_self;
  (if negb (_is_msvc self) then
     _build_make h (Some ["PREFIX=" +:+ package_folder self; "install"])
   else
     cmake ← _configure_cmake h;
     tool h (CMakeInstall cmake));;
  emit (Copy "LICENSE" "licenses" "sources" true false "sources").

Definition package_info (h : Host) : M unit :=
  self ← get_self;
  collected ← tools_collect_libs h;
  set_libs collected;;
  (if _is_msvc self then includedirs_append (path_join h "include" "openblas")
   else mret tt);;
  if String.eqb (os (settings self)) "Linux" then
    libs_append "pthread";;
    if negb (NOFORTRAN (options self)) then libs_append "gfortran"
    else mret tt
  else mret tt.

End OpenblasConan.

Import OpenblasConan.

(** ** Vocabulary of the statements *)

(** [c in s] *)
Fixpoint has_char (c : ascii) (s : string) : bool :=
  match s with
  | EmptyString => false
  | String d s' => Ascii.eqb d c || has_char c s'
  end.

(** An uppercase letter, [A] to [Z]. *)
Definition is_upper_letter (c : ascii) : bool :=
  ((65 <=? nat_of_ascii c) && (nat_of_ascii c <=? 90))%nat.

Fixpoint all_upper (s : string) : bool :=
  match s with
  | EmptyString => true
  | String c s' => is_upper_letter c && all_upper s'
  end.

(** A line of one or more uppercase letters and nothing else. *)
Definition uppercase_line (line : string) : bool :=
  match line with
  | EmptyString => false
  | String _ _ => all_upper line
  end.

(** [line] is accepted as a target by a run of [_load_possible_targets]. *)
Definition accepted (outcome : exn + list string) (line : string) : Prop :=
  exists targets, outcome = inr targets /\ In line targets.

(** Text that the ASCII codec encodes: every character below 128. *)
Fixpoint is_ascii_text (s : string) : bool :=
  match s with
  | EmptyString => true
  | String c s' => (nat_of_ascii c <? 128)%nat && is_ascii_text s'
  end.

(** [hashlib.sha256(text).hexdigest()] on the text of a response under
    Python 2, for [digest] the SHA-256 of a byte string in hexadecimal:
    the text is first encoded with the ASCII codec, which raises on any
    other character. *)
Definition hashlib_py2 (digest : string -> string) (text : string) : exn + string :=
  if is_ascii_text text then inr (digest text) else inl UnicodeEncodeError.

(** The same call under Python 3, which refuses every text. *)
Definition hashlib_py3 (text : string) : exn + string := inl TypeError.

Definition is_network_error (e : exn) : bool :=
  match e with
  | RequestException _ => true
  | _ => false
  end.

(** The messages of the warnings among some events. *)
Fixpoint warnings (l : list event) : list string :=
  match l with
  | [] => []
  | Warn msg :: l' => msg :: warnings l'
  | _ :: l' => warnings l'
  end.

(** The external tools invoked among some events. *)
Fixpoint tool_calls (l : list event) : list call :=
  match l with
  | [] => []
  | Tool c :: l' => c :: tool_calls l'
  | _ :: l' => tool_calls l'
  end.

(** The first of [names] that [which] finds, as its path. *)
Fixpoint first_found (which : string -> option string) (names : list string)
  : option string :=
  match names with
  | [] => None
  | name :: names' =>
      match which name with
      | Some path => Some path
      | None => first_found which names'
      end
  end.

(** The four cache variables the recipe defines. *)
Definition recipe_definitions : gset string :=
  {[ "USE_MASS"; "USE_OPENMP"; "NO_LAPACKE"; "NOFORTRAN" ]}.

(** The option a cache variable of the recipe is named after. *)
Definition option_named (k : string) (o : Options) : option bool :=
  if String.eqb k "USE_MASS" then Some (USE_MASS o)
  else if String.eqb k "USE_OPENMP" then Some (USE_OPENMP o)
  else if String.eqb k "NO_LAPACKE" then Some (NO_LAPACKE o)
  else if String.eqb k "NOFORTRAN" then Some (NOFORTRAN o)
  else None.

(** ** Sample inputs *)

Definition linux_gcc : Settings :=
  {| os := "Linux"; arch := "x86_64"; compiler := "gcc"; build_type := "Release" |}.

Definition windows_gcc : Settings :=
  {| os := "Windows"; arch := "x86_64"; compiler := "gcc"; build_type := "Release" |}.

Definition windows_msvc : Settings :=
  {| os := "Windows"; arch := "x86_64"; compiler := "Visual Studio"; build_type := "Debug" |}.

Definition android_clang : Settings :=
  {| os := "Android"; arch := "armv8"; compiler := "clang"; build_type := "Release" |}.

Definition sample_options (is_shared nofortran : bool) : Options :=
  {| shared := is_shared; USE_MASS := false; USE_OPENMP := false;
     NO_LAPACKE := true; NOFORTRAN := nofortran; TARGET := "HASWELL" |}.

Definition fresh (st : Settings) (o : Options) : Self :=
  {| settings := st; options := o;
     cpp_info := {| libs := []; includedirs := ["include"] |};
     source_folder := "/src"; package_folder := "/pkg"; events := [] |}.

(** A machine with an empty environment that cross-builds for Android and
    finds the programs [found] on its search path. *)
Definition sample_host (env : gmap string string) (found : list (string * string)) : Host :=
  {| environ := env;
     which := fun name =>
       match List.find (fun p => String.eqb (fst p) name) found with
       | Some p => Some (snd p)
       | None => None
       end;
     cross_building := fun st => String.eqb (os st) "Android";
     collect_libs := fun _ => ["openblas"];
     collect_libs_warnings := fun _ => [];
     path_join := fun a b => a +:+ "/" +:+ b;
     glob := fun _ => ["xianyi-OpenBLAS-abcdef"];
     new_definitions := fun st _ => {[ "CMAKE_BUILD_TYPE" := VStr (build_type st) ]};
     retcode := fun _ => O |}.

(** A manifest of four lines and an empty fifth. *)
Definition sample_manifest : string :=
  "HASWELL" +:+ String Py.LF ("CORE2" +:+ String Py.LF ("" +:+ String Py.LF ("ZEN" +:+ String Py.LF ""))).

(** A server that answers every request with the sample manifest, and two
    digest functions: one that never gives the expected digest, one that
    gives it for the sample manifest only. *)
Definition sample_server : string -> string + string := fun _ => inr sample_manifest.

Definition wrong_digest : string -> exn + string := hashlib_py2 (fun _ => "00").

Definition right_digest : string -> exn + string :=
  hashlib_py2 (fun body => if String.eqb body sample_manifest then expected_digest else "00").

(** A manifest with a character outside ASCII, the e with an acute accent
    of Latin-1, in its second line, and a server that answers with it. *)
Definition non_ascii_manifest : string :=
  "HASWELL" +:+ String Py.LF ("CAF" +:+ String "233"%char "").

Definition non_ascii_server : string -> string + string := fun _ => inr non_ascii_manifest.

(** The argument list of the Make path as the specification words it:
    the six flags, the static or shared flag, then [HOSTCC] when
    cross-compiling, [TARGET] when set, [CC] and [AR] when set in the
    environment, then the caller's trailing arguments. *)
Definition when (b : bool) (arg : string) : list string :=
  if b then [arg] else [].

Definition env_arg (h : Host) (name : string) : list string :=
  match environ h !! name with
  | Some v => [name +:+ "=" +:+ v]
  | None => []
  end.

Definition ordered_make_arguments (h : Host) (self : Self) (trailing : list string)
  : list string :=
  ["DEBUG=" +:+ _get_make_build_type_debug self;
   "BINARY=" +:+ _get_make_arch self;
   "NO_LAPACKE=" +:+ _get_make_option_value (NO_LAPACKE (options self));
   "USE_MASS=" +:+ _get_make_option_value (USE_MASS (options self));
   "USE_OPENMP=" +:+ _get_make_option_value (USE_OPENMP (options self));
   "NOFORTRAN=" +:+ _get_make_option_value (NOFORTRAN (options self))]
  ++ [if shared (options self) then "NO_STATIC=1" else "NO_SHARED=1"]
  ++ when (cross_building h (settings self)) ("HOSTCC=" +:+ Py.str (hostcc h))
  ++ when (option_bool (TARGET (options self))) ("TARGET=" +:+ TARGET (options self))
  ++ env_arg h "CC"
  ++ env_arg h "AR"
  ++ trailing.

(** The trailing arguments a caller of [_build_make] supplies. *)
Definition trailing (args : option (list string)) : list string :=
  match args with
  | Some l => l
  | None => []
  end.

(** The command [_build_make] runs. *)
Definition make_command (h : Host) (self : Self) (args : option (list string)) : call :=
  Run ("cd sources && make " +:+ Py.join " " (make_options h self args))
      (source_folder self).

(** ** The class body and the calls a method plans *)

(** The class body of [OpenblasConan]: [_targets] is loaded for [version],
    and [default_options] takes its first entry. *)
Definition class_body (requests_get : string -> string + string)
  (sha256_hexdigest : string -> exn + string) : exn + (list string * Options) :=
  match _load_possible_targets requests_get sha256_hexdigest version with
  | inl e => inl e
  | inr _targets =>
      match default_options _targets with
      | inl e => inl e
      | inr defaults => inr (_targets, defaults)
      end
  end.

(** The [CMake] object of the recipe: a fresh one with the four
    definitions of [_configure_cmake]. *)
Definition recipe_cmake (h : Host) (self : Self) : CMake :=
  define "NOFORTRAN" (VBool (NOFORTRAN (options self)))
    (define "NO_LAPACKE" (VBool (NO_LAPACKE (options self)))
       (define "USE_OPENMP" (VBool (USE_OPENMP (options self)))
          (define "USE_MASS" (VBool (USE_MASS (options self)))
             {| definitions := new_definitions h (settings self) (options self) |}))).

(** The arguments [package] adds to those of [build]. *)
Definition install_args (self : Self) : list string :=
  ["PREFIX=" +:+ package_folder self; "install"].

(** The external tools [build] and [package] mean to invoke, in order. *)
Definition build_plan (h : Host) (self : Self) : list call :=
  if _is_msvc self then
    [CMakeConfigure (recipe_cmake h self) "sources"; CMakeBuild (recipe_cmake h self)]
  else [make_command h self None].

Definition package_plan (h : Host) (self : Self) : list call :=
  if _is_msvc self then
    [CMakeConfigure (recipe_cmake h self) "sources"; CMakeInstall (recipe_cmake h self)]
  else [make_command h self (Some (install_args self))].

(** The recipe object after some more events. *)
Definition add_events (self : Self) (l : list event) : Self :=
  {| settings := settings self; options := options self;
     cpp_info := cpp_info self; source_folder := source_folder self;
     package_folder := package_folder self;
     events := events self ++ l |}.

(** What invoking a tool returns. *)
Definition status (h : Host) (c : call) : exn + unit :=
  match retcode h c with
  | O => inr tt
  | S n => inl (ConanException (S n))
  end.

(** The recipe object after the override of [configure]: [NOFORTRAN] is
    off and the warning is recorded. *)
Definition override_nofortran (self : Self) : Self :=
  {| settings := settings self;
     options := {| shared := shared (options self); USE_MASS := USE_MASS (options self);
                   USE_OPENMP := USE_OPENMP (options self);
                   NO_LAPACKE := NO_LAPACKE (options self);
                   NOFORTRAN := false; TARGET := TARGET (options self) |};
     cpp_info := cpp_info self; source_folder := source_folder self;
     package_folder := package_folder self;
     events := events self
               ++ [Warn "NOFORTRAN option is disabled for Windows. Setting to false"] |}.

(** The link dependencies [package_info] reports after the collected
    libraries, and the include directory it adds. *)
Definition link_deps (self : Self) : list string :=
  if String.eqb (os (settings self)) "Linux" then
    "pthread" :: (if NOFORTRAN (options self) then [] else ["gfortran"])
  else [].

Definition msvc_includedirs (h : Host) (self : Self) : list string :=
  if _is_msvc self then [path_join h "include" "openblas"] else [].

(** The calls of a plan that are made: up to the first that exits
    non-zero, and that one included. *)
Fixpoint attempted (h : Host) (plan : list call) : list call :=
  match plan with
  | [] => []
  | c :: plan' =>
      c :: match retcode h c with
           | O => attempted h plan'
           | S _ => []
           end
  end.

(** The exit status of the first call of a plan that exits non-zero. *)
Fixpoint first_failure (h : Host) (plan : list call) : option nat :=
  match plan with
  | [] => None
  | c :: plan' =>
      match retcode h c with
      | O => first_failure h plan'
      | S n => Some (S n)
      end
  end.

(** What a method that follows a plan returns. *)
Definition outcome (h : Host) (plan : list call) : exn + unit :=
  match first_failure h plan with
  | Some status => inl (ConanException status)
  | None => inr tt
  end.

(** The files copied among some events. *)
Fixpoint copies (l : list event) : list event :=
  match l with
  | [] => []
  | Copy pat dst src ignore_case keep_path cwd :: l' =>
      Copy pat dst src ignore_case keep_path cwd :: copies l'
  | _ :: l' => copies l'
  end.

(** The renamings among some events. *)
Fixpoint renames (l : list event) : list event :=
  match l with
  | [] => []
  | Rename src dst :: l' => Rename src dst :: renames l'
  | _ :: l' => renames l'
  end.

(** The archive [source] downloads. *)
Definition archive_url : string :=
  "https://sourceforge.net/projects/openblas/files/v0.3.5/OpenBLAS 0.3.5 version.tar.gz".

(** A manifest without a line of uppercase letters, and a digest function
    that accepts it. *)
Definition lowercase_manifest : string := "core2" +:+ String Py.LF "p5".

Definition lowercase_server : string -> string + string := fun _ => inr lowercase_manifest.

Definition lowercase_digest : string -> exn + string :=
  hashlib_py2 (fun body => if String.eqb body lowercase_manifest then expected_digest else "00").

(** A machine whose make fails with status 2, so that nothing is
    installed: no source directory is found and the package has no library
    folder. *)
Definition failing_host : Host :=
  {| environ := ∅;
     which := fun _ => None;
     cross_building := fun _ => false;
     collect_libs := fun _ => [];
     collect_libs_warnings := fun folder =>
       ["Lib folder doesn't exist, can't collect libraries: " +:+ folder +:+ "/lib"];
     path_join := fun a b => a +:+ "/" +:+ b;
     glob := fun _ => [];
     new_definitions := fun _ _ => ∅;
     retcode := fun c => match c with Run _ _ => 2%nat | _ => O end |}.

(** ** Examples: the definitions on concrete inputs *)

Example split_ex : Py.split Py.LF sample_manifest = ["HASWELL"; "CORE2"; ""; "ZEN"; ""].
Proof. reflexivity. Qed.

Example match_ex1 : Py.re_match pattern "HASWELL" = Some "HASWELL".
Proof. reflexivity. Qed.

Example match_ex2 : Py.re_match pattern "CORE2" = None.
Proof. reflexivity. Qed.

Example match_ex3 : Py.re_match pattern (String "A" (String Py.LF "")) = Some "A".
Proof. reflexivity. Qed.

Example load_ex :
  _load_possible_targets (fun _ => inr sample_manifest) (fun _ => inr expected_digest) version
  = inr ["HASWELL"; "ZEN"].
Proof. reflexivity. Qed.

Example make_options_ex :
  make_options (sample_host ∅ []) (fresh linux_gcc (sample_options true false)) None
  = ["DEBUG=0"; "BINARY=64"; "NO_LAPACKE=1"; "USE_MASS=0"; "USE_OPENMP=0";
     "NOFORTRAN=0"; "NO_STATIC=1"; "TARGET=HASWELL"].
Proof. reflexivity. Qed.

Example build_ex :
  tool_calls (events (build (sample_host ∅ []) (fresh linux_gcc (sample_options true false))).2)
  = [Run "cd sources && make DEBUG=0 BINARY=64 NO_LAPACKE=1 USE_MASS=0 USE_OPENMP=0 NOFORTRAN=0 NO_STATIC=1 TARGET=HASWELL" "/src"].
Proof. reflexivity. Qed.

Example package_ex :
  tool_calls (events (package (sample_host {[ "CC" := "arm-gcc" ]} [("gcc", "/usr/bin/gcc")])
                        (fresh android_clang (sample_options false true))).2)
  = [Run "cd sources && make DEBUG=0 BINARY=64 NO_LAPACKE=1 USE_MASS=0 USE_OPENMP=0 NOFORTRAN=1 NO_SHARED=1 HOSTCC=/usr/bin/gcc TARGET=HASWELL CC=arm-gcc PREFIX=/pkg install" "/src"].
Proof. reflexivity. Qed.

Example configure_ex :
  configure (fresh windows_gcc (sample_options true true))
  = (inr tt,
     {| settings := windows_gcc; options := sample_options true false;
        cpp_info := {| libs := []; includedirs := ["include"] |};
        source_folder := "/src"; package_folder := "/pkg";
        events := [Warn "NOFORTRAN option is disabled for Windows. Setting to false"] |}).
Proof. reflexivity. Qed.

Example package_info_ex :
  libs (cpp_info (package_info (sample_host ∅ []) (fresh linux_gcc (sample_options true false))).2)
  = ["openblas"; "pthread"; "gfortran"].
Proof. reflexivity. Qed.

(** ** Splitting into lines *)

Section Split.

Variable sep : ascii.

Lemma split_nonempty (s : string) : Py.split sep s <> [].
Proof.
  induction s as [|c s IH]; simpl; [discriminate|].
  destruct (Ascii.eqb c sep); [discriminate|].
  destruct (Py.split sep s); discriminate.
Qed.

(** No piece contains the separator. *)
Lemma split_no_sep (s : string) :
  Forall (fun piece => has_char sep piece = false) (Py.split sep s).
Proof.
  induction s as [|c s IH]; simpl.
  - repeat constructor.
  - destruct (Ascii.eqb c sep) eqn:Hc.
    + constructor; [reflexivity | exact IH].
    + destruct (Py.split sep s) as [|piece pieces].
      * repeat constructor. simpl. rewrite Hc. reflexivity.
      * inversion IH as [|? ? Hp Hps]; subst.
        constructor; [|exact Hps]. simpl. rewrite Hc. exact Hp.
Qed.

(** Joining the pieces with the separator gives the string back. *)
Lemma join_split (s : string) : Py.join (String sep "") (Py.split sep s) = s.
Proof.
  induction s as [|c s IH]; simpl; [reflexivity|].
  destruct (Ascii.eqb c sep) eqn:Hc.
  - apply Ascii.eqb_eq in Hc. subst c.
    pose proof (split_nonempty s) as Hne.
    destruct (Py.split sep s) as [|piece pieces]; [contradiction|].
    simpl in *. rewrite IH. reflexivity.
  - destruct (Py.split sep s) as [|piece pieces] eqn:Hs.
    + exfalso. exact (split_nonempty s Hs).
    + simpl in *. destruct pieces; simpl in *; rewrite <- IH; reflexivity.
Qed.

End Split.

(** ** The pattern [^[A-Z]+$] *)

Lemma in_range_A_Z (c : ascii) : Py.in_range "A" "Z" c = is_upper_letter c.
Proof. reflexivity. Qed.

(** One step of [+]: a character of the range, then more of them, else the
    rest of the pattern. *)
Lemma match_here_plus_cons lo hi r bol c rest :
  Py.match_here (Py.PlusRange lo hi :: r) bol (String c rest) =
  if Py.in_range lo hi c then
    match Py.match_here (Py.PlusRange lo hi :: r) bol rest with
    | Some m => Some (String c m)
    | None =>
        match Py.match_here r false rest with
        | Some m => Some (String c m)
        | None => None
        end
    end
  else None.
Proof. reflexivity. Qed.

Lemma match_here_plus_nil lo hi r bol :
  Py.match_here (Py.PlusRange lo hi :: r) bol EmptyString = None.
Proof. reflexivity. Qed.

Lemma uppercase_line_cons c s :
  uppercase_line (String c s) = is_upper_letter c && all_upper s.
Proof. reflexivity. Qed.

Lemma all_upper_uppercase_line s :
  all_upper s = match s with EmptyString => true | _ => uppercase_line s end.
Proof. destruct s; reflexivity. Qed.

(** On a text without a line feed, the pattern matches exactly the lines of
    uppercase letters, and the match is the whole line. *)
Lemma match_upper_eol (bol : bool) (s : string) :
  has_char Py.LF s = false ->
  Py.match_here [Py.PlusRange "A" "Z"; Py.Eol] bol s =
  if uppercase_line s then Some s else None.
Proof.
  induction s as [|c s IH]; intros Hlf.
  - reflexivity.
  - simpl in Hlf. apply orb_false_iff in Hlf as [Hc Hs].
    rewrite match_here_plus_cons, in_range_A_Z, uppercase_line_cons.
    destruct (is_upper_letter c); [|reflexivity].
    rewrite (IH Hs). simpl andb.
    destruct s as [|d s].
    + reflexivity.
    + rewrite (all_upper_uppercase_line (String d s)).
      destruct (uppercase_line (String d s)); [reflexivity|].
      simpl in Hs. apply orb_false_iff in Hs as [Hd _].
      simpl. destruct s; [rewrite Hd|]; reflexivity.
Qed.

Lemma re_match_pattern (line : string) :
  has_char Py.LF line = false ->
  Py.re_match pattern line = if uppercase_line line then Some line else None.
Proof.
  intros Hlf. unfold Py.re_match, pattern.
  change (Py.match_here (Py.Bol :: ?r) true line) with (Py.match_here r true line).
  apply match_upper_eol, Hlf.
Qed.

(** The loop over the lines keeps, in order, the lines of uppercase letters. *)
Lemma fold_collect_line (lines result : list string) :
  Forall (fun line => has_char Py.LF line = false) lines ->
  fold_left collect_line lines result = result ++ List.filter uppercase_line lines.
Proof.
  revert result. induction lines as [|line lines IH]; intros result Hlines; simpl.
  - rewrite app_nil_r. reflexivity.
  - inversion Hlines as [|? ? Hline Hrest]; subst.
    rewrite (IH _ Hrest). unfold collect_line.
    rewrite (re_match_pattern _ Hline).
    destruct (uppercase_line line); [|reflexivity].
    rewrite <- app_assoc. reflexivity.
Qed.

(** ** Loading the target list *)

Section LoadFacts.

Variable requests_get : string -> string + string.
Variable sha256_hexdigest : string -> exn + string.

(** A request that gets no response fails with the exception of
    [requests]. *)
Lemma load_network_failure (version detail : string) :
  requests_get (target_list_url version) = inl detail ->
  _load_possible_targets requests_get sha256_hexdigest version
  = inl (RequestException detail).
Proof.
  intros Hget. unfold _load_possible_targets. rewrite Hget. reflexivity.
Qed.

(** When the digest is computed and is not the expected one, loading
    fails with the recipe's own [Exception] carrying the digest message,
    which is not a network error, and no line of the body is accepted. *)
Lemma load_hashed_mismatch (version body actual : string) :
  requests_get (target_list_url version) = inr body ->
  sha256_hexdigest body = inr actual ->
  actual <> expected_digest ->
  _load_possible_targets requests_get sha256_hexdigest version
  = inl (Exception
           ("The computed digest (" +:+ target_list_url version +:+ ") fot " +:+ actual
            +:+ " is not equal to the expected digest (" +:+ expected_digest +:+ ")"))
  /\ (forall e,
        _load_possible_targets requests_get sha256_hexdigest version = inl e ->
        is_network_error e = false)
  /\ (forall line,
        ~ accepted (_load_possible_targets requests_get sha256_hexdigest version) line).
Proof.
  intros Hget Hhash Hdigest. unfold _load_possible_targets.
  rewrite Hget. cbv zeta. rewrite Hhash.
  destruct (String.eqb_spec actual expected_digest) as [Heq|Hne]; [contradiction|].
  simpl negb. cbv iota. split; [reflexivity|]. split.
  - intros e H. injection H as <-. reflexivity.
  - intros line [targets [H _]]. discriminate H.
Qed.

(** When hashing the text raises, that exception leaves the function: the
    digests are never compared and no line of the body is accepted. *)
Lemma load_hash_raises (version body : string) (raised : exn) :
  requests_get (target_list_url version) = inr body ->
  sha256_hexdigest body = inl raised ->
  _load_possible_targets requests_get sha256_hexdigest version = inl raised
  /\ (forall line,
        ~ accepted (_load_possible_targets requests_get sha256_hexdigest version) line).
Proof.
  intros Hget Hhash. unfold _load_possible_targets.
  rewrite Hget. cbv zeta. rewrite Hhash. split; [reflexivity|].
  intros line [targets [H _]]. discriminate H.
Qed.

(** C6: when the manifest passes the digest check, the targets are the
    lines of the body, split at line feeds, that consist of one or more
    uppercase letters and nothing else, in the order of the body. *)
Theorem load_accepts_uppercase_lines (version body : string) :
  requests_get (target_list_url version) = inr body ->
  sha256_hexdigest body = inr expected_digest ->
  _load_possible_targets requests_get sha256_hexdigest version
  = inr (List.filter uppercase_line (Py.split Py.LF body)).
Proof.
  intros Hget Hdigest. unfold _load_possible_targets.
  rewrite Hget. cbv zeta. rewrite Hdigest, String.eqb_refl. simpl negb. cbv iota.
  rewrite fold_collect_line by apply split_no_sep. reflexivity.
Qed.

End LoadFacts.

(** A line is accepted exactly when it is a line of the body made of
    uppercase letters. *)
Lemma accepted_filter (body line : string) :
  accepted (inr (List.filter uppercase_line (Py.split Py.LF body))) line <->
  In line (Py.split Py.LF body) /\ uppercase_line line = true.
Proof.
  unfold accepted. split.
  - intros [targets [H Hin]]. injection H as <-.
    apply filter_In in Hin. exact Hin.
  - intros Hin. eexists. split; [reflexivity|]. apply filter_In. exact Hin.
Qed.

(** C5, where the code departs from it: a manifest whose text is not ASCII
    is fetched, and under Python 2 the hashing of line 13 raises
    [UnicodeEncodeError] before the digests are compared; whatever the
    digest of the body is, the recipe's [Exception] with the digest message
    is not what loading fails with. *)
Theorem load_non_ascii_body (digest : string -> string) :
  non_ascii_server (target_list_url version) = inr non_ascii_manifest
  /\ _load_possible_targets non_ascii_server (hashlib_py2 digest) version
     = inl UnicodeEncodeError
  /\ (forall msg,
        _load_possible_targets non_ascii_server (hashlib_py2 digest) version
        <> inl (Exception msg)).
Proof.
  split; [reflexivity|]. split; [reflexivity|]. intros msg H. discriminate H.
Qed.

(** Under Python 3 the hashing refuses every text, the expected manifest
    included. *)
Example load_python3 (body : string) :
  _load_possible_targets (fun _ => inr body) hashlib_py3 version = inl TypeError.
Proof. reflexivity. Qed.

(** An ASCII manifest with another digest fails with the digest message. *)
Example load_hashed_mismatch_ex :
  _load_possible_targets sample_server wrong_digest version
  = inl (Exception "The computed digest (https://raw.githubusercontent.com/xianyi/OpenBLAS/v0.3.5/TargetList.txt) fot 00 is not equal to the expected digest (383b9fb0113801fa00efbb9c80f5dd90ded99c893b3164a86e27289400600bde)").
Proof. reflexivity. Qed.

Lemma load_accepts_uppercase_lines_witness :
  sample_server (target_list_url version) = inr sample_manifest
  /\ right_digest sample_manifest = inr expected_digest
  /\ _load_possible_targets sample_server right_digest version
     = inr (List.filter uppercase_line (Py.split Py.LF sample_manifest)).
Proof.
  split; [reflexivity|]. split; [reflexivity|].
  apply (load_accepts_uppercase_lines sample_server right_digest version sample_manifest).
  - reflexivity.
  - reflexivity.
Defined.

(** ** The configure step *)

(** Unfolds the monad of the recipe's methods. *)
Ltac run_method :=
  unfold tool, tools_collect_libs, set_NOFORTRAN, set_libs, libs_append,
    includedirs_append, set_options, set_cpp_info, emit, raise, get_self;
  unfold mbind, mret, M_bind, M_ret; simpl.

Lemma warnings_app (l1 l2 : list event) :
  warnings (l1 ++ l2) = warnings l1 ++ warnings l2.
Proof.
  induction l1 as [|e l1 IH]; simpl; [reflexivity|].
  destruct e; simpl; rewrite IH; reflexivity.
Qed.

(** C1: with the Visual Studio compiler and [shared] false, [configure]
    raises the recipe's [Exception] about static builds and leaves the
    recipe object as it was: no event was emitted, so no fetch and no
    subprocess came before the failure. *)
Theorem configure_rejects_static_msvc (self : Self) :
  compiler (settings self) = "Visual Studio" ->
  shared (options self) = false ->
  configure self
  = (inl (Exception "Static build not supported in Visual Studio: https://github.com/xianyi/OpenBLAS/blob/v0.3.5/CMakeLists.txt#L152"),
     self)
  /\ tool_calls (events (configure self).2) = tool_calls (events self).
Proof.
  intros Hcompiler Hshared.
  assert (H : configure self
              = (inl (Exception "Static build not supported in Visual Studio: https://github.com/xianyi/OpenBLAS/blob/v0.3.5/CMakeLists.txt#L152"),
                 self)).
  { unfold configure. run_method. rewrite Hcompiler, Hshared. reflexivity. }
  rewrite H. split; reflexivity.
Qed.

Lemma configure_rejects_static_msvc_witness :
  compiler (settings (fresh windows_msvc (sample_options false true))) = "Visual Studio"
  /\ shared (options (fresh windows_msvc (sample_options false true))) = false
  /\ tool_calls (events (configure (fresh windows_msvc (sample_options false true))).2) = [].
Proof.
  split; [reflexivity|]. split; [reflexivity|].
  apply (configure_rejects_static_msvc (fresh windows_msvc (sample_options false true)));
    reflexivity.
Defined.

(** [configure] fails exactly for the Visual Studio compiler without
    [shared]. *)
Lemma configure_ok_iff (self : Self) :
  (configure self).1 = inr tt <->
  (String.eqb (compiler (settings self)) "Visual Studio" && negb (shared (options self))) = false.
Proof.
  unfold configure. run_method.
  destruct (String.eqb (compiler (settings self)) "Visual Studio");
    destruct (shared (options self)); simpl;
    destruct (String.eqb (os (settings self)) "Windows");
    destruct (NOFORTRAN (options self)); simpl; split; congruence.
Qed.

(** C3, as the code has it: on Windows, when [configure] does not fail,
    [NOFORTRAN] is false afterwards; the warning is recorded once when the
    caller had requested [NOFORTRAN] and not at all otherwise. *)
Theorem configure_windows_nofortran (self : Self) :
  os (settings self) = "Windows" ->
  (configure self).1 = inr tt ->
  NOFORTRAN (options (configure self).2) = false
  /\ events (configure self).2
     = events self
       ++ (if NOFORTRAN (options self)
           then [Warn "NOFORTRAN option is disabled for Windows. Setting to false"]
           else [])
  /\ length (warnings (events (configure self).2))
     = (length (warnings (events self)) + (if NOFORTRAN (options self) then 1 else 0))%nat.
Proof.
  intros Hos. unfold configure. run_method.
  destruct (String.eqb (compiler (settings self)) "Visual Studio");
    destruct (shared (options self)); simpl; try discriminate;
    rewrite Hos; simpl;
    destruct (NOFORTRAN (options self)) eqn:Hnf; simpl; intros _;
    rewrite ?warnings_app, ?length_app, ?app_nil_r, ?Nat.add_0_r; simpl; auto.
Qed.

Lemma configure_windows_nofortran_witness :
  os (settings (fresh windows_gcc (sample_options true true))) = "Windows"
  /\ (configure (fresh windows_gcc (sample_options true true))).1 = inr tt
  /\ NOFORTRAN (options (configure (fresh windows_gcc (sample_options true true))).2) = false.
Proof.
  split; [reflexivity|]. split; [reflexivity|].
  apply (configure_windows_nofortran (fresh windows_gcc (sample_options true true)));
    reflexivity.
Defined.

(** C3 as stated fails: on Windows with [NOFORTRAN] already false,
    [configure] records no warning at all. *)
Lemma configure_windows_warning_counterexample :
  ~ (forall self : Self,
        os (settings self) = "Windows" ->
        NOFORTRAN (options (configure self).2) = false
        /\ length (warnings (events (configure self).2))
           = S (length (warnings (events self)))).
Proof.
  intros H.
  destruct (H (fresh windows_gcc (sample_options true false)) eq_refl) as [_ Hw].
  discriminate Hw.
Qed.

(** On Windows with Visual Studio and [shared] false, [configure] fails
    before the override: a requested [NOFORTRAN] stays as it was. *)
Example configure_windows_msvc_static :
  configure (fresh windows_msvc (sample_options false true))
  = (inl (Exception "Static build not supported in Visual Studio: https://github.com/xianyi/OpenBLAS/blob/v0.3.5/CMakeLists.txt#L152"),
     fresh windows_msvc (sample_options false true)).
Proof. reflexivity. Qed.

(** ** The CMake path *)

Lemma recipe_definitions_spec (k : string) :
  k ∈ recipe_definitions <->
  k = "USE_MASS" \/ k = "USE_OPENMP" \/ k = "NO_LAPACKE" \/ k = "NOFORTRAN".
Proof.
  unfold recipe_definitions. rewrite !elem_of_union, !elem_of_singleton. tauto.
Qed.

(** The definitions of the [CMake] object that [_configure_cmake] hands to
    the configure step. *)
Lemma configure_cmake_run (h : Host) (self : Self) :
  let cmake :=
    define "NOFORTRAN" (VBool (NOFORTRAN (options self)))
      (define "NO_LAPACKE" (VBool (NO_LAPACKE (options self)))
         (define "USE_OPENMP" (VBool (USE_OPENMP (options self)))
            (define "USE_MASS" (VBool (USE_MASS (options self)))
               {| definitions := new_definitions h (settings self) (options self) |}))) in
  events (_configure_cmake h self).2
  = events self ++ [Warn "Building with CMake: Some options won't make any effect";
                    Tool (CMakeConfigure cmake "sources")]
  /\ (retcode h (CMakeConfigure cmake "sources") = O ->
      (_configure_cmake h self).1 = inr cmake).
Proof.
  unfold _configure_cmake. run_method.
  match goal with |- context [retcode h ?c] => destruct (retcode h c) eqn:Hrc end;
    simpl; rewrite <- app_assoc; simpl; split; try reflexivity; discriminate.
Qed.

(** C4: the [CMake] object that [_configure_cmake] configures with and
    returns has, beyond the definitions of a fresh [CMake(self)], exactly
    the four variables [USE_MASS], [USE_OPENMP], [NO_LAPACKE] and
    [NOFORTRAN], each bound to the value of the option of that name; every
    other name, such as those of [shared], [TARGET], the architecture or
    the debug flag, is left as the fresh object had it. *)
Theorem configure_cmake_definitions (h : Host) (self : Self) :
  exists cmake : CMake,
    events (_configure_cmake h self).2
    = events self ++ [Warn "Building with CMake: Some options won't make any effect";
                      Tool (CMakeConfigure cmake "sources")]
    /\ (retcode h (CMakeConfigure cmake "sources") = O ->
        (_configure_cmake h self).1 = inr cmake)
    /\ dom (definitions cmake)
       = dom (new_definitions h (settings self) (options self)) ∪ recipe_definitions
    /\ (forall k, k ∈ recipe_definitions ->
          exists b, option_named k (options self) = Some b
                    /\ definitions cmake !! k = Some (VBool b))
    /\ (forall k, k ∉ recipe_definitions ->
          definitions cmake !! k
          = new_definitions h (settings self) (options self) !! k).
Proof.
  destruct (configure_cmake_run h self) as [Hev Hret].
  eexists. split; [exact Hev|]. split; [exact Hret|].
  unfold define; simpl. split; [|split].
  - rewrite !dom_insert_L. apply set_eq. intros k.
    rewrite !elem_of_union, !elem_of_singleton, recipe_definitions_spec. tauto.
  - intros k Hk. apply recipe_definitions_spec in Hk.
    destruct Hk as [-> | [-> | [-> | ->]]];
      eexists; (split; [reflexivity|]); by simplify_map_eq.
  - intros k Hk. rewrite recipe_definitions_spec in Hk.
    rewrite !lookup_insert_ne; [reflexivity| | | |]; intros <-; tauto.
Qed.

(** ** The Make path *)

(** [make_options] is the ordered list of the specification. *)
Lemma make_options_ordered (h : Host) (self : Self) (args : option (list string)) :
  make_options h self args = ordered_make_arguments h self (trailing args).
Proof.
  unfold make_options, ordered_make_arguments, when, env_arg, trailing.
  destruct (shared (options self));
    destruct (cross_building h (settings self));
    destruct (option_bool (TARGET (options self)));
    destruct (environ h !! "CC"); destruct (environ h !! "AR");
    destruct args as [[|a args]|]; reflexivity.
Qed.

Lemma build_make_run (h : Host) (self : Self) (args : option (list string)) :
  events (_build_make h args self).2 = events self ++ [Tool (make_command h self args)]
  /\ (retcode h (make_command h self args) = O -> (_build_make h args self).1 = inr tt).
Proof.
  unfold _build_make, make_command. run_method.
  match goal with |- context [retcode h ?c] => destruct (retcode h c) eqn:Hrc end;
    simpl; split; try reflexivity; discriminate.
Qed.

(** C2: the argument list of the Make path is, in this order, [DEBUG],
    [BINARY], [NO_LAPACKE], [USE_MASS], [USE_OPENMP], [NOFORTRAN], then
    [NO_STATIC=1] when shared and [NO_SHARED=1] otherwise, then [HOSTCC]
    when cross-compiling, [TARGET] when it is set, [CC] and [AR] when the
    environment has them, then the caller's arguments; [_build_make] runs
    make once with that list joined by spaces. *)
Theorem build_make_argument_order (h : Host) (self : Self) (args : option (list string)) :
  make_options h self args = ordered_make_arguments h self (trailing args)
  /\ events (_build_make h args self).2
     = events self
       ++ [Tool (Run ("cd sources && make "
                      +:+ Py.join " " (ordered_make_arguments h self (trailing args)))
                     (source_folder self))].
Proof.
  split; [apply make_options_ordered|].
  destruct (build_make_run h self args) as [Hev _]. rewrite Hev.
  unfold make_command. rewrite make_options_ordered. reflexivity.
Qed.

(** C7: [BINARY] is ["32"] exactly when the architecture is [x86] and
    ["64"] otherwise, [DEBUG] is ["0"] exactly when the build type is
    [Release] and ["1"] otherwise, a boolean option is rendered ["1"] when
    true and ["0"] when false, and these are the values of the first six
    arguments of the Make path. *)
Theorem make_derived_flags (h : Host) (self : Self) (args : option (list string)) :
  (_get_make_arch self = "32" <-> arch (settings self) = "x86")
  /\ (_get_make_arch self = "64" <-> arch (settings self) <> "x86")
  /\ (_get_make_build_type_debug self = "0" <-> build_type (settings self) = "Release")
  /\ (_get_make_build_type_debug self = "1" <-> build_type (settings self) <> "Release")
  /\ (forall b : bool,
        (_get_make_option_value b = "1" <-> b = true)
        /\ (_get_make_option_value b = "0" <-> b = false))
  /\ take 6 (make_options h self args)
     = ["DEBUG=" +:+ _get_make_build_type_debug self;
        "BINARY=" +:+ _get_make_arch self;
        "NO_LAPACKE=" +:+ _get_make_option_value (NO_LAPACKE (options self));
        "USE_MASS=" +:+ _get_make_option_value (USE_MASS (options self));
        "USE_OPENMP=" +:+ _get_make_option_value (USE_OPENMP (options self));
        "NOFORTRAN=" +:+ _get_make_option_value (NOFORTRAN (options self))].
Proof.
  unfold _get_make_arch, _get_make_build_type_debug.
  repeat split.
  - destruct (String.eqb_spec (arch (settings self)) "x86"); [trivial | discriminate].
  - intros ->. reflexivity.
  - destruct (String.eqb_spec (arch (settings self)) "x86"); [discriminate | trivial].
  - intros Hne. destruct (String.eqb_spec (arch (settings self)) "x86"); [contradiction | reflexivity].
  - destruct (String.eqb_spec (build_type (settings self)) "Release"); [trivial | discriminate].
  - intros ->. reflexivity.
  - destruct (String.eqb_spec (build_type (settings self)) "Release"); [discriminate | trivial].
  - intros Hne. destruct (String.eqb_spec (build_type (settings self)) "Release");
      [contradiction | reflexivity].
  - destruct b; [trivial | discriminate].
  - intros ->. reflexivity.
  - destruct b; [discriminate | trivial].
  - intros ->. reflexivity.
  - rewrite make_options_ordered. reflexivity.
Qed.

(** The host compiler found by search is the first of [cc], [gcc], [clang]
    that [which] finds, when [which] never answers the empty path. *)
Lemma hostcc_first_found (h : Host) :
  (forall name, which h name <> Some "") ->
  hostcc h = match environ h !! "CC_FOR_BUILD" with
             | Some cc_for_build => Some cc_for_build
             | None => first_found (which h) ["cc"; "gcc"; "clang"]
             end.
Proof.
  intros Hwf. unfold hostcc. destruct (environ h !! "CC_FOR_BUILD"); [reflexivity|].
  pose proof (Hwf "cc") as Hcc. pose proof (Hwf "gcc") as Hgcc.
  pose proof (Hwf "clang") as Hclang. simpl.
  destruct (which h "cc") as [[|c1 p1]|]; [congruence | reflexivity |].
  destruct (which h "gcc") as [[|c2 p2]|]; [congruence | reflexivity |].
  destruct (which h "clang") as [[|c3 p3]|]; [congruence | reflexivity | reflexivity].
Qed.

(** When cross-compiling, the eighth argument is [HOSTCC]. *)
Lemma make_options_hostcc (h : Host) (self : Self) (args : option (list string)) :
  cross_building h (settings self) = true ->
  make_options h self args !! 7%nat = Some ("HOSTCC=" +:+ Py.str (hostcc h)).
Proof.
  intros Hcross. rewrite make_options_ordered. unfold ordered_make_arguments.
  rewrite Hcross. reflexivity.
Qed.

(** C8: when cross-compiling, the argument after the static or shared flag
    is [HOSTCC], whose value is [CC_FOR_BUILD] from the environment when it
    is set, and otherwise the path of the first of [cc], [gcc], [clang]
    that is found on the search path. *)
Theorem hostcc_priority (h : Host) (self : Self) (args : option (list string)) :
  cross_building h (settings self) = true ->
  (forall name, which h name <> Some "") ->
  make_options h self args !! 7%nat
  = Some ("HOSTCC="
          +:+ Py.str (match environ h !! "CC_FOR_BUILD" with
                      | Some cc_for_build => Some cc_for_build
                      | None => first_found (which h) ["cc"; "gcc"; "clang"]
                      end)).
Proof.
  intros Hcross Hwf. rewrite (make_options_hostcc _ _ _ Hcross).
  rewrite (hostcc_first_found _ Hwf). reflexivity.
Qed.

(** C10: when cross-compiling with [CC_FOR_BUILD] unset and none of [cc],
    [gcc], [clang] found, nothing is raised while the arguments are built:
    the list has the argument [HOSTCC=None], and make is run with it. *)
Theorem hostcc_unresolved (h : Host) (self : Self) (args : option (list string)) :
  cross_building h (settings self) = true ->
  environ h !! "CC_FOR_BUILD" = None ->
  which h "cc" = None -> which h "gcc" = None -> which h "clang" = None ->
  make_options h self args !! 7%nat = Some "HOSTCC=None"
  /\ events (_build_make h args self).2
     = events self
       ++ [Tool (Run ("cd sources && make " +:+ Py.join " " (make_options h self args))
                     (source_folder self))]
  /\ (retcode h (make_command h self args) = O -> (_build_make h args self).1 = inr tt).
Proof.
  intros Hcross Henv Hcc Hgcc Hclang. split.
  - rewrite (make_options_hostcc _ _ _ Hcross). unfold hostcc.
    rewrite Henv, Hcc, Hgcc, Hclang. reflexivity.
  - apply build_make_run.
Qed.

(** ** Reported link dependencies *)

(** C9: on Linux, the libraries reported are the collected ones followed by
    the link dependencies, which include [pthread], and include [gfortran]
    exactly when [NOFORTRAN] is false. *)
Theorem package_info_linux (h : Host) (self : Self) :
  os (settings self) = "Linux" ->
  exists deps : list string,
    (package_info h self).1 = inr tt
    /\ libs (cpp_info (package_info h self).2)
       = collect_libs h (package_folder self) ++ deps
    /\ In "pthread" deps
    /\ (In "gfortran" deps <-> NOFORTRAN (options self) = false).
Proof.
  intros Hos.
  exists ("pthread" :: if NOFORTRAN (options self) then [] else ["gfortran"]).
  unfold package_info, _is_msvc. run_method.
  destruct (String.eqb (compiler (settings self)) "Visual Studio"); simpl;
    rewrite Hos; simpl;
    destruct (NOFORTRAN (options self)); simpl;
    rewrite <- ?app_assoc; simpl;
    (split; [reflexivity|]); (split; [reflexivity|]); (split; [auto|]);
    split; intros H; try reflexivity; try discriminate; auto;
    destruct H as [H|H]; try discriminate; destruct H.
Qed.

Lemma package_info_linux_witness :
  os (settings (fresh linux_gcc (sample_options true false))) = "Linux"
  /\ exists deps : list string,
      (package_info (sample_host ∅ []) (fresh linux_gcc (sample_options true false))).1
      = inr tt
      /\ libs (cpp_info (package_info (sample_host ∅ [])
                           (fresh linux_gcc (sample_options true false))).2)
         = collect_libs (sample_host ∅ [])
             (package_folder (fresh linux_gcc (sample_options true false))) ++ deps
      /\ In "pthread" deps
      /\ (In "gfortran" deps
          <-> NOFORTRAN (options (fresh linux_gcc (sample_options true false))) = false).
Proof.
  split; [reflexivity|].
  apply (package_info_linux (sample_host ∅ []) (fresh linux_gcc (sample_options true false))).
  reflexivity.
Defined.

(** ** Witnesses of the Make path on a cross build for Android *)

Lemma sample_host_which_nonempty (env : gmap string string) (name : string) :
  which (sample_host env [("gcc", "/usr/bin/gcc"); ("clang", "/usr/bin/clang")]) name
  <> Some "".
Proof.
  unfold sample_host, which, List.find, fst, snd.
  destruct (String.eqb "gcc" name); [discriminate|].
  destruct (String.eqb "clang" name); discriminate.
Defined.

Lemma hostcc_priority_witness :
  cross_building (sample_host ∅ [("gcc", "/usr/bin/gcc"); ("clang", "/usr/bin/clang")])
    (settings (fresh android_clang (sample_options true false))) = true
  /\ make_options (sample_host ∅ [("gcc", "/usr/bin/gcc"); ("clang", "/usr/bin/clang")])
       (fresh android_clang (sample_options true false)) None !! 7%nat
     = Some "HOSTCC=/usr/bin/gcc".
Proof.
  split; [reflexivity|].
  exact (hostcc_priority
           (sample_host ∅ [("gcc", "/usr/bin/gcc"); ("clang", "/usr/bin/clang")])
           (fresh android_clang (sample_options true false)) None
           eq_refl (sample_host_which_nonempty ∅)).
Defined.

Lemma hostcc_unresolved_witness :
  cross_building (sample_host ∅ []) (settings (fresh android_clang (sample_options true false)))
  = true
  /\ environ (sample_host ∅ []) !! "CC_FOR_BUILD" = None
  /\ which (sample_host ∅ []) "cc" = None
  /\ which (sample_host ∅ []) "gcc" = None
  /\ which (sample_host ∅ []) "clang" = None
  /\ make_options (sample_host ∅ []) (fresh android_clang (sample_options true false)) None
     !! 7%nat = Some "HOSTCC=None".
Proof.
  repeat (split; [reflexivity|]).
  apply (hostcc_unresolved (sample_host ∅ [])
           (fresh android_clang (sample_options true false)) None); reflexivity.
Defined.


(** ** Build and package: the tools invoked *)

Lemma tool_calls_app (l1 l2 : list event) :
  tool_calls (l1 ++ l2) = tool_calls l1 ++ tool_calls l2.
Proof.
  induction l1 as [|e l1 IH]; simpl; [reflexivity|].
  destruct e; simpl; rewrite IH; reflexivity.
Qed.

Lemma copies_app (l1 l2 : list event) : copies (l1 ++ l2) = copies l1 ++ copies l2.
Proof.
  induction l1 as [|e l1 IH]; simpl; [reflexivity|].
  destruct e; simpl; rewrite IH; reflexivity.
Qed.

Lemma renames_app (l1 l2 : list event) : renames (l1 ++ l2) = renames l1 ++ renames l2.
Proof.
  induction l1 as [|e l1 IH]; simpl; [reflexivity|].
  destruct e; simpl; rewrite IH; reflexivity.
Qed.

Lemma add_events_nil (self : Self) : add_events self [] = self.
Proof. destruct self. unfold add_events. simpl. rewrite app_nil_r. reflexivity. Qed.

Lemma add_events_app (self : Self) (l1 l2 : list event) :
  add_events (add_events self l1) l2 = add_events self (l1 ++ l2).
Proof. unfold add_events. simpl. rewrite app_assoc. reflexivity. Qed.

Lemma emit_eq (e : event) (self : Self) : emit e self = (inr tt, add_events self [e]).
Proof. reflexivity. Qed.

(** Invoking a tool records it and returns its status. *)
Lemma tool_eq (h : Host) (c : call) (self : Self) :
  tool h c self = (status h c, add_events self [Tool c]).
Proof.
  unfold tool, status. run_method. destruct (retcode h c); reflexivity.
Qed.

Lemma build_make_eq (h : Host) (args : option (list string)) (self : Self) :
  _build_make h args self
  = (status h (make_command h self args), add_events self [Tool (make_command h self args)]).
Proof.
  unfold _build_make. unfold mbind, M_bind, get_self. rewrite tool_eq. reflexivity.
Qed.

Lemma configure_cmake_eq (h : Host) (self : Self) :
  _configure_cmake h self
  = (match status h (CMakeConfigure (recipe_cmake h self) "sources") with
     | inl e => inl e
     | inr _ => inr (recipe_cmake h self)
     end,
     add_events self [Warn "Building with CMake: Some options won't make any effect";
                      Tool (CMakeConfigure (recipe_cmake h self) "sources")]).
Proof.
  unfold _configure_cmake, recipe_cmake, status, tool. run_method.
  match goal with |- context [retcode h ?c] => destruct (retcode h c) end;
    unfold add_events; simpl; rewrite <- app_assoc; reflexivity.
Qed.

(** The events of [build] and of [package] before the copy. *)
Lemma build_eq (h : Host) (self : Self) :
  exists l : list event,
    build h self = (outcome h (build_plan h self), add_events self l)
    /\ tool_calls l = attempted h (build_plan h self)
    /\ copies l = [] /\ renames l = [].
Proof.
  unfold build, _build_cmake, build_plan, outcome.
  unfold mbind at 1. unfold M_bind at 1. unfold get_self at 1.
  destruct (_is_msvc self).
  - unfold mbind, M_bind. rewrite configure_cmake_eq. unfold status. simpl.
    destruct (retcode h (CMakeConfigure (recipe_cmake h self) "sources")) eqn:Hc.
    + rewrite tool_eq, add_events_app. unfold status.
      destruct (retcode h (CMakeBuild (recipe_cmake h self))) eqn:Hb;
        eexists; (split; [reflexivity|]); simpl; rewrite ?Hc, ?Hb; auto.
    + eexists; (split; [reflexivity|]); simpl; rewrite ?Hc, ?Hb; auto.
  - rewrite build_make_eq. unfold status. simpl.
    destruct (retcode h (make_command h self None));
      eexists; (split; [reflexivity|]); simpl; auto.
Qed.

(** X1: [build] invokes CMake configure and then CMake build when the
    compiler is Visual Studio, and make once otherwise; it stops at the
    first tool that exits non-zero and raises [ConanException] with that
    status, and returns normally when none does.  Options are untouched and
    nothing is copied or renamed. *)
Theorem build_follows_plan (h : Host) (self : Self) :
  (build h self).1 = outcome h (build_plan h self)
  /\ tool_calls (events (build h self).2)
     = tool_calls (events self) ++ attempted h (build_plan h self)
  /\ copies (events (build h self).2) = copies (events self)
  /\ renames (events (build h self).2) = renames (events self)
  /\ options (build h self).2 = options self
  /\ cpp_info (build h self).2 = cpp_info self.
Proof.
  destruct (build_eq h self) as (l & -> & Hcalls & Hcopies & Hrenames). simpl.
  rewrite tool_calls_app, copies_app, renames_app, Hcalls, Hcopies, Hrenames, !app_nil_r.
  repeat split; reflexivity.
Qed.

Lemma package_eq (h : Host) (self : Self) :
  exists l : list event,
    package h self
    = (outcome h (package_plan h self),
       add_events self
         (l ++ match first_failure h (package_plan h self) with
               | Some _ => []
               | None => [Copy "LICENSE" "licenses" "sources" true false "sources"]
               end))
    /\ tool_calls l = attempted h (package_plan h self)
    /\ copies l = [] /\ renames l = [].
Proof.
  unfold package, package_plan, outcome, install_args.
  unfold mbind at 1. unfold M_bind at 1. unfold get_self at 1.
  destruct (_is_msvc self); simpl negb; cbv iota.
  - unfold mbind, M_bind. rewrite configure_cmake_eq. unfold status. simpl.
    destruct (retcode h (CMakeConfigure (recipe_cmake h self) "sources")) eqn:Hc.
    + rewrite tool_eq, add_events_app. unfold status.
      destruct (retcode h (CMakeInstall (recipe_cmake h self))) eqn:Hb.
      * rewrite emit_eq, !add_events_app.
        eexists; (split; [reflexivity|]); simpl; rewrite ?Hc, ?Hb; auto.
      * eexists; split; [rewrite app_nil_r; reflexivity|]; simpl; rewrite ?Hc, ?Hb; auto.
    + eexists; split; [rewrite app_nil_r; reflexivity|]; simpl; rewrite ?Hc, ?Hb; auto.
  - unfold mbind, M_bind. rewrite build_make_eq. unfold status. simpl.
    destruct (retcode h (make_command h self
                           (Some ["PREFIX=" +:+ package_folder self; "install"]))).
    + rewrite emit_eq, !add_events_app.
      eexists; (split; [reflexivity|]); simpl; auto.
    + eexists; split; [rewrite app_nil_r; reflexivity|]; simpl; auto.
Qed.

(** X2: [package] invokes CMake configure and then CMake install when the
    compiler is Visual Studio, and make with the install arguments
    otherwise, stopping at the first tool that exits non-zero and raising
    [ConanException] with that status; the licence is copied, once, exactly
    when every tool succeeded. *)
Theorem package_follows_plan (h : Host) (self : Self) :
  (package h self).1 = outcome h (package_plan h self)
  /\ tool_calls (events (package h self).2)
     = tool_calls (events self) ++ attempted h (package_plan h self)
  /\ copies (events (package h self).2)
     = copies (events self)
       ++ match first_failure h (package_plan h self) with
          | Some _ => []
          | None => [Copy "LICENSE" "licenses" "sources" true false "sources"]
          end
  /\ options (package h self).2 = options self.
Proof.
  destruct (package_eq h self) as (l & -> & Hcalls & Hcopies & Hrenames). simpl.
  rewrite tool_calls_app, copies_app, tool_calls_app, copies_app, Hcalls, Hcopies.
  repeat split; try reflexivity.
  - destruct (first_failure h (package_plan h self)); simpl; rewrite ?app_nil_r; reflexivity.
  - destruct (first_failure h (package_plan h self)); reflexivity.
Qed.

Lemma append_assoc (a b c : string) : (a +:+ b) +:+ c = a +:+ b +:+ c.
Proof.
  induction a as [|x a IH]; [reflexivity|].
  change (String x ((a +:+ b) +:+ c) = String x (a +:+ b +:+ c)).
  rewrite IH. reflexivity.
Qed.

(** Joining a list that got one more element. *)
Lemma join_snoc (sep : string) (l : list string) (a : string) :
  l <> [] -> Py.join sep (l ++ [a]) = Py.join sep l +:+ sep +:+ a.
Proof.
  induction l as [|x l IH]; intros Hne; [contradiction|].
  destruct l as [|y l]; [reflexivity|].
  change (Py.join sep ((x :: y :: l) ++ [a]))
    with (x +:+ sep +:+ Py.join sep ((y :: l) ++ [a])).
  rewrite IH by discriminate.
  change (Py.join sep (x :: y :: l)) with (x +:+ sep +:+ Py.join sep (y :: l)).
  rewrite !append_assoc. reflexivity.
Qed.

(** The caller's arguments come after the list built without them. *)
Lemma make_options_args (h : Host) (self : Self) (args : list string) :
  make_options h self (Some args) = make_options h self None ++ args.
Proof.
  unfold make_options. destruct args; rewrite ?app_nil_r; reflexivity.
Qed.

Lemma make_options_not_nil (h : Host) (self : Self) (args : option (list string)) :
  make_options h self args <> [].
Proof. rewrite make_options_ordered. discriminate. Qed.

Lemma attempted_single (h : Host) (c : call) : attempted h [c] = [c].
Proof. unfold attempted. destruct (retcode h c); reflexivity. Qed.

(** X3: when the compiler is not Visual Studio, the command [package] runs
    is the command [build] runs followed by [PREFIX=<package folder>] and
    [install]: installing passes the same flags as building. *)
Theorem install_command_extends_build (h : Host) (self : Self) :
  _is_msvc self = false ->
  exists cmd : string,
    tool_calls (events (build h self).2)
    = tool_calls (events self) ++ [Run cmd (source_folder self)]
    /\ tool_calls (events (package h self).2)
       = tool_calls (events self)
         ++ [Run (cmd +:+ " PREFIX=" +:+ package_folder self +:+ " install")
               (source_folder self)].
Proof.
  intros Hmsvc.
  exists ("cd sources && make " +:+ Py.join " " (make_options h self None)).
  destruct (build_eq h self) as (lb & -> & Hb & _).
  destruct (package_eq h self) as (lp & -> & Hp & _).
  cbn [snd add_events events]. rewrite !tool_calls_app, Hb, Hp.
  unfold build_plan, package_plan. rewrite Hmsvc, !attempted_single.
  assert (Hnone : forall o : option nat,
             tool_calls match o with
                        | Some _ => []
                        | None => [Copy "LICENSE" "licenses" "sources" true false "sources"]
                        end = []) by (intros [n|]; reflexivity).
  rewrite Hnone, app_nil_r. split; [reflexivity|].
  unfold make_command, install_args. rewrite make_options_args.
  change (make_options h self None ++ ["PREFIX=" +:+ package_folder self; "install"])
    with (make_options h self None ++ ["PREFIX=" +:+ package_folder self] ++ ["install"]).
  rewrite app_assoc, join_snoc, join_snoc, !append_assoc.
  - reflexivity.
  - apply make_options_not_nil.
  - intros H. apply app_eq_nil in H as [H _]. exact (make_options_not_nil _ _ _ H).
Qed.

Lemma install_command_extends_build_witness :
  _is_msvc (fresh linux_gcc (sample_options true false)) = false
  /\ exists cmd : string,
      tool_calls (events (build (sample_host ∅ []) (fresh linux_gcc (sample_options true false))).2)
      = tool_calls (events (fresh linux_gcc (sample_options true false)))
        ++ [Run cmd (source_folder (fresh linux_gcc (sample_options true false)))]
      /\ tool_calls (events (package (sample_host ∅ [])
                               (fresh linux_gcc (sample_options true false))).2)
         = tool_calls (events (fresh linux_gcc (sample_options true false)))
           ++ [Run (cmd +:+ " PREFIX="
                    +:+ package_folder (fresh linux_gcc (sample_options true false))
                    +:+ " install")
                 (source_folder (fresh linux_gcc (sample_options true false)))].
Proof.
  split; [reflexivity|].
  apply (install_command_extends_build (sample_host ∅ [])
           (fresh linux_gcc (sample_options true false))).
  reflexivity.
Defined.

(** With Visual Studio and tools that succeed, [build] and [package] each
    warn, configure and run their step. *)
Lemma build_msvc_ok (h : Host) (self : Self) :
  _is_msvc self = true ->
  (forall c, retcode h c = O) ->
  build h self
  = (inr tt,
     add_events self [Warn "Building with CMake: Some options won't make any effect";
                      Tool (CMakeConfigure (recipe_cmake h self) "sources");
                      Tool (CMakeBuild (recipe_cmake h self))]).
Proof.
  intros Hmsvc Hok. unfold build, _build_cmake.
  unfold mbind at 1. unfold M_bind at 1. unfold get_self at 1. rewrite Hmsvc.
  unfold mbind, M_bind. rewrite configure_cmake_eq. unfold status. rewrite Hok.
  rewrite tool_eq, add_events_app. unfold status. rewrite Hok. reflexivity.
Qed.

Lemma package_msvc_ok (h : Host) (self : Self) :
  _is_msvc self = true ->
  (forall c, retcode h c = O) ->
  package h self
  = (inr tt,
     add_events self [Warn "Building with CMake: Some options won't make any effect";
                      Tool (CMakeConfigure (recipe_cmake h self) "sources");
                      Tool (CMakeInstall (recipe_cmake h self));
                      Copy "LICENSE" "licenses" "sources" true false "sources"]).
Proof.
  intros Hmsvc Hok. unfold package.
  unfold mbind at 1. unfold M_bind at 1. unfold get_self at 1. rewrite Hmsvc.
  simpl negb. cbv iota.
  unfold mbind, M_bind. rewrite configure_cmake_eq. unfold status. rewrite Hok.
  rewrite tool_eq, add_events_app. unfold status. rewrite Hok.
  rewrite emit_eq, add_events_app. reflexivity.
Qed.

(** X4: with Visual Studio and tools that succeed, [build] followed by
    [package] configures CMake twice, with the same definitions both
    times, builds once and installs once, and warns twice that some
    options have no effect. *)
Theorem msvc_build_then_package (h : Host) (self : Self) :
  _is_msvc self = true ->
  (forall c, retcode h c = O) ->
  ((build h ;; package h) self).1 = inr tt
  /\ tool_calls (events ((build h ;; package h) self).2)
     = tool_calls (events self)
       ++ [CMakeConfigure (recipe_cmake h self) "sources";
           CMakeBuild (recipe_cmake h self);
           CMakeConfigure (recipe_cmake h self) "sources";
           CMakeInstall (recipe_cmake h self)]
  /\ warnings (events ((build h ;; package h) self).2)
     = warnings (events self)
       ++ ["Building with CMake: Some options won't make any effect";
           "Building with CMake: Some options won't make any effect"].
Proof.
  intros Hmsvc Hok. unfold mbind, M_bind.
  rewrite (build_msvc_ok h self Hmsvc Hok).
  rewrite package_msvc_ok; [|exact Hmsvc|exact Hok].
  rewrite add_events_app. cbn [fst snd add_events events].
  rewrite tool_calls_app, warnings_app. repeat split; reflexivity.
Qed.

Lemma msvc_build_then_package_witness :
  _is_msvc (fresh windows_msvc (sample_options true false)) = true
  /\ (forall c, retcode (sample_host ∅ []) c = O)
  /\ ((build (sample_host ∅ []) ;; package (sample_host ∅ []))
        (fresh windows_msvc (sample_options true false))).1 = inr tt.
Proof.
  split; [reflexivity|]. split; [reflexivity|].
  apply (msvc_build_then_package (sample_host ∅ [])
           (fresh windows_msvc (sample_options true false))); reflexivity.
Defined.

(** ** Fetching the sources *)

(** X5: [source] logs, then downloads the archive of version 0.3.5 once;
    when the download fails nothing is renamed; when it succeeds, the first
    directory matching [xianyi-OpenBLAS-*] is renamed to [sources], and
    [IndexError] is raised when no directory matches. *)
Theorem source_effect (h : Host) (self : Self) :
  (source h self).1
  = match status h (ToolsGet archive_url) with
    | inl e => inl e
    | inr _ =>
        match glob h "xianyi-OpenBLAS-*" with
        | [] => inl IndexError
        | _ :: _ => inr tt
        end
    end
  /\ tool_calls (events (source h self).2)
     = tool_calls (events self) ++ [ToolsGet archive_url]
  /\ renames (events (source h self).2)
     = renames (events self)
       ++ match status h (ToolsGet archive_url), glob h "xianyi-OpenBLAS-*" with
          | inr _, first :: _ => [Rename first "sources"]
          | _, _ => []
          end
  /\ options (source h self).2 = options self.
Proof.
  unfold source. unfold mbind, M_bind. rewrite emit_eq.
  change ("https://sourceforge.net/projects/openblas" +:+ "/files/v" +:+ version +:+ "/"
          +:+ ("OpenBLAS" +:+ " " +:+ version +:+ " version") +:+ ".tar.gz")
    with archive_url.
  rewrite tool_eq, add_events_app. unfold status.
  destruct (retcode h (ToolsGet archive_url)).
  - destruct (glob h "xianyi-OpenBLAS-*") as [|first rest].
    + cbn [fst snd raise add_events events options].
      rewrite tool_calls_app, renames_app. cbn [tool_calls renames].
      rewrite ?app_nil_r. repeat split; reflexivity.
    + rewrite emit_eq, add_events_app. cbn [fst snd add_events events options].
      rewrite tool_calls_app, renames_app. cbn [tool_calls renames].
      repeat split; reflexivity.
  - cbn [fst snd add_events events options].
    rewrite tool_calls_app, renames_app. cbn [tool_calls renames].
      rewrite ?app_nil_r. repeat split; reflexivity.
Qed.

(** ** More on the configure step *)

(** [configure] in closed form. *)
Lemma configure_eq (self : Self) :
  configure self
  = if String.eqb (compiler (settings self)) "Visual Studio" && negb (shared (options self))
    then (inl (Exception "Static build not supported in Visual Studio: https://github.com/xianyi/OpenBLAS/blob/v0.3.5/CMakeLists.txt#L152"),
          self)
    else if String.eqb (os (settings self)) "Windows" && NOFORTRAN (options self)
         then (inr tt, override_nofortran self)
         else (inr tt, self).
Proof.
  unfold configure. run_method.
  destruct (String.eqb (compiler (settings self)) "Visual Studio");
    destruct (shared (options self)); simpl; try reflexivity;
    destruct (String.eqb (os (settings self)) "Windows");
    destruct (NOFORTRAN (options self)); reflexivity.
Qed.

(** X6: [configure] is idempotent: after a [configure] that did not fail, a
    second one changes nothing and records nothing more. *)
Theorem configure_idempotent (self : Self) :
  (configure self).1 = inr tt ->
  configure (configure self).2 = (inr tt, (configure self).2).
Proof.
  rewrite (configure_eq self).
  destruct (String.eqb (compiler (settings self)) "Visual Studio"
            && negb (shared (options self))) eqn:Hvs; [discriminate|].
  intros _.
  destruct (String.eqb (os (settings self)) "Windows" && NOFORTRAN (options self)) eqn:Hw;
    cbn [snd]; rewrite configure_eq.
  - change (String.eqb (compiler (settings (override_nofortran self))) "Visual Studio"
            && negb (shared (options (override_nofortran self))))
      with (String.eqb (compiler (settings self)) "Visual Studio"
            && negb (shared (options self))).
    rewrite Hvs.
    change (NOFORTRAN (options (override_nofortran self))) with false.
    rewrite andb_false_r. reflexivity.
  - rewrite Hvs, Hw. reflexivity.
Qed.

Lemma configure_idempotent_witness :
  (configure (fresh windows_gcc (sample_options true true))).1 = inr tt
  /\ configure (configure (fresh windows_gcc (sample_options true true))).2
     = (inr tt, (configure (fresh windows_gcc (sample_options true true))).2).
Proof.
  split; [reflexivity|].
  apply (configure_idempotent (fresh windows_gcc (sample_options true true))).
  reflexivity.
Defined.

(** X7: whatever its outcome, [configure] leaves the settings, the folders,
    [cpp_info] and every option but [NOFORTRAN] as they were, never turns
    [NOFORTRAN] on, and invokes no external tool. *)
Theorem configure_frame (self : Self) :
  settings (configure self).2 = settings self
  /\ cpp_info (configure self).2 = cpp_info self
  /\ source_folder (configure self).2 = source_folder self
  /\ package_folder (configure self).2 = package_folder self
  /\ shared (options (configure self).2) = shared (options self)
  /\ USE_MASS (options (configure self).2) = USE_MASS (options self)
  /\ USE_OPENMP (options (configure self).2) = USE_OPENMP (options self)
  /\ NO_LAPACKE (options (configure self).2) = NO_LAPACKE (options self)
  /\ TARGET (options (configure self).2) = TARGET (options self)
  /\ (NOFORTRAN (options (configure self).2) = true -> NOFORTRAN (options self) = true)
  /\ tool_calls (events (configure self).2) = tool_calls (events self).
Proof.
  rewrite configure_eq.
  destruct (String.eqb (compiler (settings self)) "Visual Studio"
            && negb (shared (options self)));
    [|destruct (String.eqb (os (settings self)) "Windows" && NOFORTRAN (options self))];
    cbn [snd override_nofortran settings cpp_info source_folder package_folder options
           shared USE_MASS USE_OPENMP NO_LAPACKE TARGET NOFORTRAN events];
    rewrite ?tool_calls_app, ?app_nil_r;
    repeat split; try reflexivity; try discriminate; auto.
Qed.

(** X8: on a target OS other than Windows, or when [NOFORTRAN] is already
    false, [configure] leaves the recipe object exactly as it was, whether
    it fails or not. *)
Theorem configure_unchanged (self : Self) :
  os (settings self) <> "Windows" \/ NOFORTRAN (options self) = false ->
  (configure self).2 = self.
Proof.
  intros Hcase. rewrite configure_eq.
  destruct (String.eqb (compiler (settings self)) "Visual Studio"
            && negb (shared (options self))); [reflexivity|].
  destruct (String.eqb_spec (os (settings self)) "Windows") as [Hos|Hos].
  - destruct Hcase as [Hne | ->]; [contradiction | reflexivity].
  - reflexivity.
Qed.

Lemma configure_unchanged_witness :
  (os (settings (fresh linux_gcc (sample_options true true))) <> "Windows"
   \/ NOFORTRAN (options (fresh linux_gcc (sample_options true true))) = false)
  /\ (configure (fresh linux_gcc (sample_options true true))).2
     = fresh linux_gcc (sample_options true true).
Proof.
  split; [left; discriminate|].
  apply (configure_unchanged (fresh linux_gcc (sample_options true true))).
  left. discriminate.
Defined.

(** X9: on Windows, a [build] that follows a [configure] that did not fail
    passes [NOFORTRAN] off on either path: the sixth argument of make is
    [NOFORTRAN=0], and the CMake definition [NOFORTRAN] is false. *)
Theorem windows_build_nofortran_off (h : Host) (self : Self) (args : option (list string)) :
  os (settings self) = "Windows" ->
  (configure self).1 = inr tt ->
  (configure ;; build h) self = build h (configure self).2
  /\ make_options h (configure self).2 args !! 5%nat = Some "NOFORTRAN=0"
  /\ definitions (recipe_cmake h (configure self).2) !! "NOFORTRAN" = Some (VBool false).
Proof.
  intros Hos. unfold mbind, M_bind. rewrite configure_eq, Hos.
  destruct (String.eqb (compiler (settings self)) "Visual Studio"
            && negb (shared (options self))); [discriminate|].
  intros _. rewrite String.eqb_refl. simpl andb.
  destruct (NOFORTRAN (options self)) eqn:Hnf; cbn [fst snd].
  - split; [reflexivity|]. rewrite make_options_ordered. split; [reflexivity|].
    unfold recipe_cmake, define. cbn [definitions]. apply lookup_insert_eq.
  - split; [reflexivity|]. rewrite make_options_ordered.
    unfold ordered_make_arguments. rewrite Hnf. split; [reflexivity|].
    unfold recipe_cmake, define. cbn [definitions]. rewrite Hnf. apply lookup_insert_eq.
Qed.

Lemma windows_build_nofortran_off_witness :
  os (settings (fresh windows_gcc (sample_options true true))) = "Windows"
  /\ (configure (fresh windows_gcc (sample_options true true))).1 = inr tt
  /\ make_options (sample_host ∅ [])
       (configure (fresh windows_gcc (sample_options true true))).2 None !! 5%nat
     = Some "NOFORTRAN=0".
Proof.
  split; [reflexivity|]. split; [reflexivity|].
  apply (windows_build_nofortran_off (sample_host ∅ [])
           (fresh windows_gcc (sample_options true true)) None); reflexivity.
Defined.

(** ** More on the reported package information *)

(** [package_info] in closed form. *)
Lemma package_info_eq (h : Host) (self : Self) :
  package_info h self
  = (inr tt,
     {| settings := settings self; options := options self;
        cpp_info := {| libs := collect_libs h (package_folder self) ++ link_deps self;
                       includedirs := includedirs (cpp_info self) ++ msvc_includedirs h self |};
        source_folder := source_folder self; package_folder := package_folder self;
        events := events self
                  ++ List.map Warn (collect_libs_warnings h (package_folder self)) |}).
Proof.
  unfold package_info, link_deps, msvc_includedirs. run_method.
  destruct (_is_msvc self); simpl;
    destruct (String.eqb (os (settings self)) "Linux"); simpl;
    destruct (NOFORTRAN (options self)); simpl;
    rewrite <- ?app_assoc, ?app_nil_r; reflexivity.
Qed.

(** X10: [package_info] discards the libraries reported before and
    reports the collected ones, followed on Linux only by [pthread] and,
    unless [NOFORTRAN], [gfortran], so that on any other OS they are exactly
    the collected ones; it appends [include/openblas] to the include
    directories for Visual Studio only, and leaves the options as they
    were. *)
Theorem package_info_effect (h : Host) (self : Self) :
  libs (cpp_info (package_info h self).2)
  = collect_libs h (package_folder self)
    ++ (if String.eqb (os (settings self)) "Linux"
        then "pthread" :: (if NOFORTRAN (options self) then [] else ["gfortran"])
        else [])
  /\ includedirs (cpp_info (package_info h self).2)
     = includedirs (cpp_info self)
       ++ (if String.eqb (compiler (settings self)) "Visual Studio"
           then [path_join h "include" "openblas"] else [])
  /\ options (package_info h self).2 = options self.
Proof. rewrite package_info_eq. repeat split; reflexivity. Qed.

(** X11: calling [package_info] twice reports the same libraries as calling
    it once, but for Visual Studio the include directory is appended
    twice. *)
Theorem package_info_twice (h : Host) (self : Self) :
  libs (cpp_info ((package_info h ;; package_info h) self).2)
  = libs (cpp_info (package_info h self).2)
  /\ includedirs (cpp_info ((package_info h ;; package_info h) self).2)
     = includedirs (cpp_info self)
       ++ (if _is_msvc self
           then [path_join h "include" "openblas"; path_join h "include" "openblas"]
           else []).
Proof.
  unfold mbind, M_bind. rewrite (package_info_eq h self), package_info_eq.
  cbn [snd cpp_info libs includedirs package_folder].
  split; [reflexivity|].
  unfold msvc_includedirs, _is_msvc. cbn [settings].
  destruct (String.eqb (compiler (settings self)) "Visual Studio");
    rewrite <- ?app_assoc, ?app_nil_r; reflexivity.
Qed.

(** ** More on the Make path *)

(** X12: in a build that is not a cross build, the arguments of make depend
    on the machine only through [CC] and [AR] of the environment: the
    search path and [CC_FOR_BUILD] play no part. *)
Theorem native_build_ignores_search_path (h1 h2 : Host) (self : Self)
  (args : option (list string)) :
  cross_building h1 (settings self) = false ->
  cross_building h2 (settings self) = false ->
  environ h1 !! "CC" = environ h2 !! "CC" ->
  environ h1 !! "AR" = environ h2 !! "AR" ->
  make_options h1 self args = make_options h2 self args.
Proof.
  intros Hc1 Hc2 Hcc Har. rewrite !make_options_ordered.
  unfold ordered_make_arguments, env_arg. rewrite Hc1, Hc2, Hcc, Har. reflexivity.
Qed.

Lemma native_build_ignores_search_path_witness :
  cross_building (sample_host ∅ []) (settings (fresh linux_gcc (sample_options true false)))
  = false
  /\ make_options (sample_host ∅ []) (fresh linux_gcc (sample_options true false)) None
     = make_options (sample_host {[ "CC_FOR_BUILD" := "tcc" ]} [("cc", "/usr/bin/cc")])
         (fresh linux_gcc (sample_options true false)) None.
Proof.
  split; [reflexivity|].
  apply (native_build_ignores_search_path (sample_host ∅ [])
           (sample_host {[ "CC_FOR_BUILD" := "tcc" ]} [("cc", "/usr/bin/cc")])
           (fresh linux_gcc (sample_options true false)) None); reflexivity.
Defined.

(** X13: the arguments [build] gives to make contain [NO_STATIC=1] exactly
    when [shared] is true and [NO_SHARED=1] exactly when it is false: one
    of the two, never both, whatever the environment holds. *)
Theorem static_shared_flag (h : Host) (self : Self) :
  (In "NO_STATIC=1" (make_options h self None) <-> shared (options self) = true)
  /\ (In "NO_SHARED=1" (make_options h self None) <-> shared (options self) = false).
Proof.
  rewrite make_options_ordered.
  unfold ordered_make_arguments, when, env_arg, trailing,
    _get_make_build_type_debug, _get_make_arch, _get_make_option_value.
  assert (Hprefix : forall (p x y : string) (c d : ascii),
             c <> d -> String c p +:+ x <> String d y).
  { intros p x y c d Hcd H. injection H as Hc _. contradiction. }
  split; (split; [|intros Hs; rewrite Hs; simpl; tauto]);
    rewrite !in_app_iff; intros Hin;
    destruct (shared (options self)); try reflexivity; exfalso;
    repeat match type of Hin with
      | _ \/ _ => destruct Hin as [Hin|Hin]
      end;
    repeat match type of Hin with
      | In _ (if ?b then _ else _) => destruct b
      | In _ (match ?o with Some _ => _ | None => _ end) => destruct o
      | In _ (_ :: _) => destruct Hin as [Hin|Hin]
      | In _ [] => destruct Hin
      end;
    try discriminate Hin;
    try (revert Hin; apply Hprefix; discriminate);
    try (repeat match type of Hin with
           | context [if ?b then _ else _] => destruct b
           end; discriminate Hin).
Qed.

(** ** The class body *)

Section ClassBody.

Variable requests_get : string -> string + string.
Variable sha256_hexdigest : string -> exn + string.

(** A list of targets is only returned for a fetched body with the expected
    digest, and is then the uppercase lines of that body. *)
Lemma load_inr_inv (v : string) (targets : list string) :
  _load_possible_targets requests_get sha256_hexdigest v = inr targets ->
  exists body,
    requests_get (target_list_url v) = inr body
    /\ sha256_hexdigest body = inr expected_digest
    /\ targets = List.filter uppercase_line (Py.split Py.LF body).
Proof.
  unfold _load_possible_targets. cbv zeta.
  destruct (requests_get (target_list_url v)) as [detail|body]; [discriminate|].
  destruct (sha256_hexdigest body) as [raised|actual] eqn:Hhash; [discriminate|].
  destruct (String.eqb_spec actual expected_digest) as [Heq|Hne];
    simpl negb; cbv iota; [|discriminate].
  intros H. injection H as <-. exists body.
  split; [reflexivity|]. split; [congruence|].
  rewrite fold_collect_line by apply split_no_sep. reflexivity.
Qed.

Lemma load_ok (v body : string) :
  requests_get (target_list_url v) = inr body ->
  sha256_hexdigest body = inr expected_digest ->
  _load_possible_targets requests_get sha256_hexdigest v
  = inr (List.filter uppercase_line (Py.split Py.LF body)).
Proof.
  intros Hget Hdigest. unfold _load_possible_targets.
  rewrite Hget. cbv zeta. rewrite Hdigest, String.eqb_refl. simpl negb. cbv iota.
  rewrite fold_collect_line by apply split_no_sep. reflexivity.
Qed.

(** X14: when the class body succeeds, the manifest was fetched with the
    expected digest, the default [TARGET] is the first of the loaded
    targets, so a line of uppercase letters of the manifest, and the other
    defaults are [shared], no [USE_MASS], no [USE_OPENMP], [NO_LAPACKE] and
    Fortran on. *)
Theorem class_body_defaults (targets : list string) (defaults : Options) :
  class_body requests_get sha256_hexdigest = inr (targets, defaults) ->
  (exists body,
      requests_get (target_list_url version) = inr body
      /\ sha256_hexdigest body = inr expected_digest
      /\ In (TARGET defaults) (Py.split Py.LF body))
  /\ head targets = Some (TARGET defaults)
  /\ uppercase_line (TARGET defaults) = true
  /\ defaults = {| shared := true; USE_MASS := false; USE_OPENMP := false;
                   NO_LAPACKE := true; NOFORTRAN := false;
                   TARGET := TARGET defaults |}.
Proof.
  unfold class_body.
  destruct (_load_possible_targets requests_get sha256_hexdigest version)
    as [e|loaded] eqn:Hload; [discriminate|].
  destruct loaded as [|first rest]; simpl; [discriminate|].
  intros H. injection H as <- <-. simpl.
  destruct (load_inr_inv _ _ Hload) as (body & Hget & Hdigest & Hfilter).
  assert (Hin : In first (List.filter uppercase_line (Py.split Py.LF body))).
  { rewrite <- Hfilter. left. reflexivity. }
  apply filter_In in Hin as [Hin Hupper].
  split; [exists body; auto|]. split; [reflexivity|]. split; [exact Hupper | reflexivity].
Qed.

(** X15: for a manifest fetched with the expected digest, the class body
    fails with [IndexError] exactly when no line of the manifest consists
    of uppercase letters. *)
Theorem class_body_no_target (body : string) :
  requests_get (target_list_url version) = inr body ->
  sha256_hexdigest body = inr expected_digest ->
  (class_body requests_get sha256_hexdigest = inl IndexError
   <-> forall line, In line (Py.split Py.LF body) -> uppercase_line line = false).
Proof.
  intros Hget Hdigest. unfold class_body.
  rewrite (load_ok _ _ Hget Hdigest).
  destruct (List.filter uppercase_line (Py.split Py.LF body)) as [|first rest] eqn:Hf; simpl.
  - split; [|reflexivity]. intros _ line Hin.
    destruct (uppercase_line line) eqn:Hu; [|reflexivity].
    assert (Hmem : In line (List.filter uppercase_line (Py.split Py.LF body)))
      by (apply filter_In; auto).
    rewrite Hf in Hmem. destruct Hmem.
  - split; [discriminate|]. intros Hnone.
    assert (Hmem : In first (List.filter uppercase_line (Py.split Py.LF body)))
      by (rewrite Hf; left; reflexivity).
    apply filter_In in Hmem as [Hin Hu]. rewrite (Hnone _ Hin) in Hu. discriminate.
Qed.

End ClassBody.

Lemma class_body_defaults_witness :
  class_body sample_server right_digest
  = inr (["HASWELL"; "ZEN"], sample_options true false)
  /\ head ["HASWELL"; "ZEN"] = Some (TARGET (sample_options true false))
  /\ uppercase_line (TARGET (sample_options true false)) = true.
Proof.
  split; [reflexivity|].
  destruct (class_body_defaults sample_server right_digest ["HASWELL"; "ZEN"]
              (sample_options true false) eq_refl) as (_ & Hhead & Hupper & _).
  split; [exact Hhead | exact Hupper].
Defined.

Lemma class_body_no_target_witness :
  lowercase_server (target_list_url version) = inr lowercase_manifest
  /\ lowercase_digest lowercase_manifest = inr expected_digest
  /\ (class_body lowercase_server lowercase_digest = inl IndexError
      <-> forall line, In line (Py.split Py.LF lowercase_manifest) ->
                       uppercase_line line = false).
Proof.
  split; [reflexivity|]. split; [reflexivity|].
  apply (class_body_no_target lowercase_server lowercase_digest lowercase_manifest);
    reflexivity.
Defined.

(** ** The pattern on arbitrary text *)

Lemma uppercase_line_inv (m : string) :
  uppercase_line m = true ->
  exists c m', m = String c m' /\ is_upper_letter c = true /\ all_upper m' = true.
Proof.
  destruct m as [|c m']; [discriminate|].
  rewrite uppercase_line_cons. intros H. apply andb_true_iff in H. eauto.
Qed.

Lemma match_upper_eol_iff (bol : bool) (s m : string) :
  Py.match_here [Py.PlusRange "A" "Z"; Py.Eol] bol s = Some m <->
  uppercase_line m = true /\ (s = m \/ s = m +:+ String Py.LF "").
Proof.
  revert m. induction s as [|c s IH]; intros m.
  - rewrite match_here_plus_nil. split; [discriminate|].
    intros [Hu [<- | H]]; [discriminate Hu|].
    destruct m; discriminate H.
  - rewrite match_here_plus_cons, in_range_A_Z. split.
    + destruct (is_upper_letter c) eqn:Hc; [|discriminate].
      destruct (Py.match_here [Py.PlusRange "A" "Z"; Py.Eol] bol s) as [m'|] eqn:Hm.
      * intros H. injection H as <-. destruct (proj1 (IH m') eq_refl) as [Hu Hs].
        split.
        -- rewrite uppercase_line_cons, Hc. destruct m'; [discriminate Hu | exact Hu].
        -- destruct Hs as [-> | ->]; [left | right]; reflexivity.
      * change (Py.match_here [Py.Eol] false s)
          with (if Py.at_eol s then Some EmptyString else None).
        destruct (Py.at_eol s) eqn:He; [|discriminate].
        intros H. injection H as <-. split; [rewrite uppercase_line_cons, Hc; reflexivity|].
        destruct s as [|d [|e s]]; try discriminate He; [left; reflexivity|].
        simpl in He. apply Ascii.eqb_eq in He. subst d. right. reflexivity.
    + intros [Hu Hs].
      destruct (uppercase_line_inv _ Hu) as (d & m' & -> & Hd & Hm').
      assert (Hcs : c = d /\ (s = m' \/ s = m' +:+ String Py.LF "")).
      { destruct Hs as [H | H]; injection H as -> ->; auto. }
      destruct Hcs as [-> Hs']. rewrite Hd.
      destruct m' as [|e m''].
      * assert (Hnone : Py.match_here [Py.PlusRange "A" "Z"; Py.Eol] bol s = None).
        { destruct Hs' as [-> | ->]; reflexivity. }
        rewrite Hnone.
        change (Py.match_here [Py.Eol] false s)
          with (if Py.at_eol s then Some EmptyString else None).
        destruct Hs' as [-> | ->]; reflexivity.
      * assert (Hm : Py.match_here [Py.PlusRange "A" "Z"; Py.Eol] bol s = Some (String e m''))
          by (apply IH; auto).
        rewrite Hm. reflexivity.
Qed.

(** X16: on any text, the pattern [^[A-Z]+$] matches exactly a run of one
    or more uppercase letters that is the whole text or the whole text but
    one final line feed, and [group(0)] is that run without the line
    feed. *)
Theorem pattern_match_iff (s m : string) :
  Py.re_match pattern s = Some m <->
  uppercase_line m = true /\ (s = m \/ s = m +:+ String Py.LF "").
Proof.
  unfold Py.re_match, pattern.
  change (Py.match_here (Py.Bol :: ?r) true s) with (Py.match_here r true s).
  apply match_upper_eol_iff.
Qed.

(** ** Examples: a make that fails *)

Example build_failure_ex :
  (build failing_host (fresh linux_gcc (sample_options true false))).1
  = inl (ConanException 2).
Proof. reflexivity. Qed.

Example package_failure_ex :
  copies (events (package failing_host (fresh linux_gcc (sample_options true false))).2) = []
  /\ tool_calls (events (package failing_host (fresh linux_gcc (sample_options true false))).2)
     = [Run "cd sources && make DEBUG=0 BINARY=64 NO_LAPACKE=1 USE_MASS=0 USE_OPENMP=0 NOFORTRAN=0 NO_STATIC=1 TARGET=HASWELL PREFIX=/pkg install" "/src"].
Proof. split; reflexivity. Qed.

Example source_no_directory_ex :
  (source failing_host (fresh linux_gcc (sample_options true false))).1 = inl IndexError.
Proof. reflexivity. Qed.

(** The warning of [tools.collect_libs] is on the output of the recipe. *)
Example package_info_missing_lib_folder_ex :
  package_info failing_host (fresh linux_gcc (sample_options true true))
  = (inr tt,
     {| settings := linux_gcc; options := sample_options true true;
        cpp_info := {| libs := ["pthread"]; includedirs := ["include"] |};
        source_folder := "/src"; package_folder := "/pkg";
        events := [Warn "Lib folder doesn't exist, can't collect libraries: /pkg/lib"] |}).
Proof. reflexivity. Qed.
